(** * LocalLink: the tunnelling protocol of the edge server and the client

    A shallow embedding of [server/tunnel.js], [client/lib/tunnel.js],
    [client/lib/reconnect.js] and [client/lib/config.js], and the properties
    of the protocol checked against it.

    Conventions.
    - JavaScript strings are [string]s; a character is one code unit below
      256 (Latin-1), which covers HTTP header names and URLs.
    - JavaScript objects that are shared and mutated ([res], [ws], the local
      [req]) live in stores indexed by a handle, so that aliasing is kept.
    - A handler is a computation in a state-and-exception monad: what it
      changed before it threw stays changed. *)

From stdpp Require Import gmap strings list fin_maps pretty.
From Stdlib Require Import ZArith Ascii String.
From Stdlib.Strings Require Import Byte.

Open Scope string_scope.
Open Scope Z_scope.

(** ** JavaScript strings *)

Module Js.

(** [String.prototype.toLowerCase] on one code unit: [A-Z] and the
    upper-case letters of Latin-1 (U+00C0 to U+00DE, without U+00D7). *)
Definition lower_unit (c : ascii) : ascii :=
  let n := nat_of_ascii c in
  if ((65 <=? n) && (n <=? 90))%nat
     || ((192 <=? n) && (n <=? 222) && negb (n =? 215))%nat
  then ascii_of_nat (n + 32) else c.

Fixpoint toLowerCase (s : string) : string :=
  match s with
  | EmptyString => EmptyString
  | String c r => String (lower_unit c) (toLowerCase r)
  end.

(** [Array.prototype.includes] on an array of strings. *)
Definition includes (l : list string) (s : string) : bool :=
  bool_decide (s ∈ l).

(** [String.prototype.startsWith]. *)
Fixpoint startsWith (s p : string) : bool :=
  match p, s with
  | EmptyString, _ => true
  | String a p', String b s' => bool_decide (a = b) && startsWith s' p'
  | String _ _, EmptyString => false
  end.

(** WhiteSpace and LineTerminator code units below 256: TAB, LF, VT, FF,
    CR, SP and NBSP. *)
Definition is_space (c : ascii) : bool :=
  let n := nat_of_ascii c in
  (((9 <=? n) && (n <=? 13)) || (n =? 32) || (n =? 160))%nat.

Fixpoint trimStart (s : string) : string :=
  match s with
  | String c r => if is_space c then trimStart r else s
  | EmptyString => EmptyString
  end.

(** Drops the white space at the end: the string is empty when all of it
    is white space. *)
Fixpoint trimEnd (s : string) : string :=
  match s with
  | EmptyString => EmptyString
  | String c r =>
      match trimEnd r with
      | EmptyString => if is_space c then EmptyString else String c EmptyString
      | r' => String c r'
      end
  end.

Definition trim (s : string) : string := trimEnd (trimStart s).

(** [s.replace(/\/$/, '')]: without the [m] flag [$] matches at the end of
    the input only, so at most the last code unit goes. *)
Fixpoint stripTrailingSlash (s : string) : string :=
  match s with
  | EmptyString => EmptyString
  | String c EmptyString => if bool_decide (c = "/"%char) then EmptyString else s
  | String c r => String c (stripTrailingSlash r)
  end.

End Js.

(** ** Header sanitization ([TunnelManager.sanitizeHeaders]) *)

Definition hopByHop : list string :=
  [ "connection"; "keep-alive"; "proxy-authenticate"; "proxy-authorization";
    "te"; "trailers"; "transfer-encoding"; "upgrade" ].

Definition is_hop (key : string) : bool :=
  Js.includes hopByHop (Js.toLowerCase key).

(** A header object, as the HTTP parser builds [req.headers], has own
    string keys, each once; the loop over [Object.entries] copies an entry
    with [sanitized[key] = value], an insertion, unless the lower-cased key
    is in the list. *)
Definition sanitizeHeaders (headers : gmap string string) : gmap string string :=
  map_fold (fun key value sanitized =>
              if is_hop key then sanitized else <[key := value]> sanitized)
           ∅ headers.


(** [parseInt(s)] without a radix: leading white space, a sign, an optional
    [0x] prefix, then the longest run of digits; [None] is [NaN]. *)
Module ParseInt.

Definition digit_of (radix : Z) (c : ascii) : option Z :=
  let n := Z.of_nat (nat_of_ascii c) in
  let d := if (48 <=? n) && (n <=? 57) then n - 48
           else if (97 <=? n) && (n <=? 122) then n - 87
           else if (65 <=? n) && (n <=? 90) then n - 55
           else 99 in
  if d <? radix then Some d else None.

Fixpoint digits (radix : Z) (acc : option Z) (s : string) : option Z :=
  match s with
  | EmptyString => acc
  | String c r =>
      match digit_of radix c with
      | Some d => digits radix (Some (radix * default 0 acc + d)) r
      | None => acc
      end
  end.

Definition unsigned (s : string) : option Z :=
  if Js.startsWith s "0x" || Js.startsWith s "0X"
  then digits 16 None (String.substring 2 (String.length s) s)
  else digits 10 None s.

Definition parseInt (s : string) : option Z :=
  match Js.trimStart s with
  | String "-" r => Z.opp <$> unsigned r
  | String "+" r => unsigned r
  | r => unsigned r
  end.

End ParseInt.

(** ** Buffers and base64

    [chunk.toString('base64')] and [Buffer.from(text, 'base64')] are library
    functions: the model is parametric in them, and [StdBase64] is the
    standard alphabet, used where a frame is computed. *)

Definition Buffer := list byte.

Class Base64 := {
  to_base64 : Buffer -> string;
  from_base64 : string -> Buffer
}.

Module StdBase64.

Definition alphabet : string :=
  "ABCDEFGHIJKLMNOPQRSTUVWXYZabcdefghijklmnopqrstuvwxyz0123456789+/".

Definition sextet (n : N) : ascii :=
  default "A"%char (String.get (N.to_nat n) alphabet).

Fixpoint encode (b : Buffer) : string :=
  match b with
  | [] => ""
  | [x] =>
      let n := Byte.to_N x in
      String (sextet (n / 4)) (String (sextet (n mod 4 * 16)) "==")
  | [x; y] =>
      let n := Byte.to_N x in
      let m := Byte.to_N y in
      String (sextet (n / 4))
        (String (sextet (n mod 4 * 16 + m / 16))
           (String (sextet (m mod 16 * 4)) "="))
  | x :: y :: z :: r =>
      let n := Byte.to_N x in
      let m := Byte.to_N y in
      let k := Byte.to_N z in
      String (sextet (n / 4))
        (String (sextet (n mod 4 * 16 + m / 16))
           (String (sextet (m mod 16 * 4 + k / 64))
              (String (sextet (k mod 64)) (encode r))))
  end%N.

Definition value (c : ascii) : option N :=
  let n := N_of_ascii c in
  (if (65 <=? n) && (n <=? 90) then Some (n - 65)
   else if (97 <=? n) && (n <=? 122) then Some (n - 71)
   else if (48 <=? n) && (n <=? 57) then Some (n + 4)
   else if (n =? 43) || (n =? 45) then Some 62
   else if (n =? 47) || (n =? 95) then Some 63
   else None)%N.

(** The sextets up to the first [=]; other characters are skipped. *)
Fixpoint sextets (s : string) : list N :=
  match s with
  | EmptyString => []
  | String c r =>
      if bool_decide (c = "="%char) then []
      else match value c with
           | Some v => v :: sextets r
           | None => sextets r
           end
  end%N.

Definition octet (n : N) : byte := default x00 (Byte.of_N (n mod 256)).

Fixpoint octets (l : list N) : Buffer :=
  match l with
  | a :: b :: c :: d :: r =>
      octet (a * 4 + b / 16) :: octet (b mod 16 * 16 + c / 4)
        :: octet (c mod 4 * 64 + d) :: octets r
  | [a; b; c] => [octet (a * 4 + b / 16); octet (b mod 16 * 16 + c / 4)]
  | [a; b] => [octet (a * 4 + b / 16)]
  | _ => []
  end%N.

Definition decode (s : string) : Buffer := octets (sextets s).

Definition codec : Base64 := {| to_base64 := encode; from_base64 := decode |}.

End StdBase64.


(** ** Handlers: state and exceptions *)

Inductive JsError :=
  | TypeError (what : string)
  | SyntaxError (what : string)
  | ERR_HTTP_HEADERS_SENT
  | ERR_HTTP_INVALID_STATUS_CODE (code : Z)
  | ERR_INVALID_HTTP_TOKEN (field name : string)
  | ERR_INVALID_CHAR (name : string)
  | ERR_UNESCAPED_CHARACTERS
  | ERR_SOCKET_BAD_PORT (port : Z)
  | Error (what : string).

Inductive completion (A : Type) :=
  | Normal (a : A)
  | Thrown (e : JsError).
Arguments Normal {A} a.
Arguments Thrown {A} e.

Definition M (St A : Type) : Type := St -> St * completion A.

Section Monad.
Context {St : Type}.

Definition ret {A} (a : A) : M St A := fun s => (s, Normal a).

Definition throw {A} (e : JsError) : M St A := fun s => (s, Thrown e).

Definition bind {A B} (m : M St A) (k : A -> M St B) : M St B :=
  fun s => match m s with
           | (s', Normal a) => k a s'
           | (s', Thrown e) => (s', Thrown e)
           end.

Definition gets {A} (f : St -> A) : M St A := fun s => (s, Normal (f s)).

Definition modify (f : St -> St) : M St unit := fun s => (f s, Normal tt).

(** [try { m } catch (error) { handler(error) }] *)
Definition try_catch {A} (m : M St A) (handler : JsError -> M St A) : M St A :=
  fun s => match m s with
           | (s', Normal a) => (s', Normal a)
           | (s', Thrown e) => handler e s'
           end.

Definition when (b : bool) (m : M St unit) : M St unit :=
  if b then m else ret tt.

(** [for (const x of l) body(x)]: a throw leaves the loop. *)
Fixpoint for_each {A} (l : list A) (body : A -> M St unit) : M St unit :=
  match l with
  | [] => ret tt
  | x :: r => bind (body x) (fun _ => for_each r body)
  end.

End Monad.

Declare Scope js_scope.
Delimit Scope js_scope with js.
Notation "x ← y ; z" := (bind y (fun x => z))
  (at level 20, y at level 100, z at level 200, only parsing) : js_scope.
Notation "x ;; z" := (bind x (fun _ => z))
  (at level 100, z at level 200, only parsing, right associativity) : js_scope.

(** ** [Map]: keys in insertion order *)

Module JsMap.
Section Ordered.
Context {K : Type} `{EqDecision K} {V : Type}.

Fixpoint get (k : K) (m : list (K * V)) : option V :=
  match m with
  | [] => None
  | (k', v) :: r => if bool_decide (k' = k) then Some v else get k r
  end.

(** [set] on a key of the map keeps its place. *)
Fixpoint set (k : K) (v : V) (m : list (K * V)) : list (K * V) :=
  match m with
  | [] => [(k, v)]
  | (k', v') :: r =>
      if bool_decide (k' = k) then (k, v) :: r else (k', v') :: set k v r
  end.

Fixpoint delete (k : K) (m : list (K * V)) : list (K * V) :=
  match m with
  | [] => []
  | (k', v') :: r =>
      if bool_decide (k' = k) then delete k r else (k', v') :: delete k r
  end.

End Ordered.
End JsMap.

(** ** Frames on the control channel

    One record for the parsed JSON object of a frame: an absent field is
    [None]; [msg_hasBody] and [msg_streaming] are the truthiness of the
    field, which is all the code reads of them. *)

Record Message := {
  msg_type : string;
  msg_id : option string;
  msg_method : option string;
  msg_url : option string;
  msg_headers : option (gmap string string);
  msg_hasBody : bool;
  msg_body : option string;
  msg_status : option Z;
  msg_streaming : bool;
  msg_data : option string;
  msg_direction : option string;
  msg_port : option Z;
  msg_message : option string
}.

(** What a ['message'] event carries: text that [JSON.parse] rejects, with
    the message of the SyntaxError it throws, or the parsed object. *)
Inductive Wire :=
  | Unparseable (what : string)
  | Parsed (message : Message).

(** Truthiness of an optional string field. *)
Definition truthy (s : option string) : bool :=
  match s with
  | Some s => negb (bool_decide (s = ""))
  | None => false
  end.

(** [error.message] *)
Definition error_message (e : JsError) : string :=
  let quote := String (ascii_of_nat 34) "" in
  match e with
  | TypeError what => what
  | SyntaxError what => what
  | ERR_HTTP_HEADERS_SENT => "Cannot set headers after they are sent to the client"
  | ERR_HTTP_INVALID_STATUS_CODE code => "Invalid status code: " ++ pretty code
  | ERR_INVALID_HTTP_TOKEN field name =>
      field ++ " must be a valid HTTP token [" ++ quote ++ name ++ quote ++ "]"
  | ERR_INVALID_CHAR name =>
      "Invalid character in header content [" ++ quote ++ name ++ quote ++ "]"
  | ERR_UNESCAPED_CHARACTERS => "Request path contains unescaped characters"
  | ERR_SOCKET_BAD_PORT port =>
      "Port should be >= 0 and < 65536. Received type number (" ++ pretty port ++ ")."
  | Error what => what
  end.

(** ** What Node accepts in the head of a message *)

Module Http.

Fixpoint all (f : ascii -> bool) (s : string) : bool :=
  match s with
  | EmptyString => true
  | String c r => f c && all f r
  end.

(** The characters of [checkIsHttpToken]:
    [^_`a-zA-Z-0-9!#$%&'*+.|~]. *)
Definition isTokenChar (c : ascii) : bool :=
  let n := nat_of_ascii c in
  (((48 <=? n) && (n <=? 57)) || ((65 <=? n) && (n <=? 90))
   || ((94 <=? n) && (n <=? 122))
   || bool_decide (n ∈ [33; 35; 36; 37; 38; 39; 42; 43; 45; 46; 124; 126]))%nat.

(** A header name or a method: tokens, not empty. *)
Definition isToken (s : string) : bool :=
  negb (bool_decide (s = "")) && all isTokenChar s.

(** [checkInvalidHeaderChar] finds nothing: TAB, the printable characters
    and those from 0x80 on. *)
Definition isHeaderValue (s : string) : bool :=
  all (fun c => let n := nat_of_ascii c in
                ((n =? 9) || ((32 <=? n) && (n <=? 126)) || (128 <=? n))%nat) s.

(** A request path: no character outside [\u0021-\u00ff]. *)
Definition isPath (s : string) : bool :=
  all (fun c => (33 <=? nat_of_ascii c)%nat) s.

(** The status codes [writeHead] accepts. *)
Definition validStatus (code : Z) : bool := (100 <=? code) && (code <=? 999).

(** The ports [net.connect] accepts. *)
Definition validPort (port : Z) : bool := (0 <=? port) && (port <? 65536).

End Http.

(** ** The public response ([res])

    The part of an Express response the handlers use. [res.status] only
    records the code; the head goes out, with the code recorded then, at the
    first [res.write], [res.end] or [res.json], which throw when that code
    is not one [writeHead] accepts; [res.json] and [res.setHeader] throw
    once the head is out, and [res.setHeader] throws on a name or a value
    that Node rejects; [res.write] after [res.end] writes nothing. *)

Inductive ResPhase :=
  | Fresh
  | HeadersSent (code : Z)
  | Finished (code : Z).

Record ErrorBody := { error : string; message : string }.

Record Response := {
  statusCode : Z;
  resHeaders : gmap string string;
  phase : ResPhase;
  chunks : list Buffer;
  json : option ErrorBody
}.

Definition freshResponse : Response :=
  {| statusCode := 200; resHeaders := ∅; phase := Fresh; chunks := []; json := None |}.

Global Instance Response_inhabited : Inhabited Response := populate freshResponse.

Definition headersSent (r : Response) : bool :=
  match phase r with Fresh => false | _ => true end.

Module Res.

Definition status (code : Z) (r : Response) : Response :=
  {| statusCode := code; resHeaders := resHeaders r; phase := phase r;
     chunks := chunks r; json := json r |}.

Definition setHeader (key value : string) (r : Response) : completion Response :=
  if headersSent r then Thrown ERR_HTTP_HEADERS_SENT
  else if negb (Http.isToken key) then Thrown (ERR_INVALID_HTTP_TOKEN "Header name" key)
  else if negb (Http.isHeaderValue value) then Thrown (ERR_INVALID_CHAR key)
  else Normal {| statusCode := statusCode r;
                 resHeaders := <[key := value]> (resHeaders r);
                 phase := phase r; chunks := chunks r; json := json r |}.

Definition write (chunk : Buffer) (r : Response) : completion Response :=
  match phase r with
  | Finished _ => Normal r
  | Fresh =>
      if Http.validStatus (statusCode r) then
        Normal {| statusCode := statusCode r; resHeaders := resHeaders r;
                  phase := HeadersSent (statusCode r); chunks := chunks r ++ [chunk];
                  json := json r |}
      else Thrown (ERR_HTTP_INVALID_STATUS_CODE (statusCode r))
  | HeadersSent code =>
      Normal {| statusCode := statusCode r; resHeaders := resHeaders r;
                phase := HeadersSent code; chunks := chunks r ++ [chunk];
                json := json r |}
  end.

Definition end_ (r : Response) : completion Response :=
  match phase r with
  | Fresh =>
      if Http.validStatus (statusCode r) then
        Normal {| statusCode := statusCode r; resHeaders := resHeaders r;
                  phase := Finished (statusCode r); chunks := chunks r;
                  json := json r |}
      else Thrown (ERR_HTTP_INVALID_STATUS_CODE (statusCode r))
  | HeadersSent code =>
      Normal {| statusCode := statusCode r; resHeaders := resHeaders r;
                phase := Finished code; chunks := chunks r; json := json r |}
  | Finished _ => Normal r
  end.

Definition json_ (body : ErrorBody) (r : Response) : completion Response :=
  match phase r with
  | Fresh =>
      if Http.validStatus (statusCode r) then
        Normal {| statusCode := statusCode r; resHeaders := resHeaders r;
                  phase := Finished (statusCode r); chunks := chunks r;
                  json := Some body |}
      else Thrown (ERR_HTTP_INVALID_STATUS_CODE (statusCode r))
  | _ => Thrown ERR_HTTP_HEADERS_SENT
  end.

End Res.

(** ** The edge: [TunnelManager] and the objects it holds *)

(** A WebSocket: [readyState] (1 is OPEN), the frames sent on it, the
    ['message'] listeners added by [forwardRequest] (one per request, named
    by its id), and whether [registerTunnel] added its ['close'] listener. *)
Record Socket := {
  readyState : Z;
  sent : list Message;
  messageListeners : list string;
  closeListener : bool
}.

Global Instance Socket_inhabited : Inhabited Socket :=
  populate {| readyState := 3; sent := []; messageListeners := []; closeListener := false |}.

Record Tunnel := { ws : nat; port : Z; registeredAt : Z }.

Record Pending := { res : nat; responseStarted : bool }.

Record Edge := {
  activeTunnel : option Tunnel;
  pendingRequests : list (string * Pending);
  sockets : gmap nat Socket;
  responses : gmap nat Response
}.

Definition newTunnelManager (sockets : gmap nat Socket) (responses : gmap nat Response) : Edge :=
  {| activeTunnel := None; pendingRequests := []; sockets := sockets; responses := responses |}.

Record Request := { method : string; url : string; headers : gmap string string }.

Record Status := { connected : bool; status_port : option Z; uptime : option Z }.

Module EdgeOps.

Definition set_activeTunnel (t : option Tunnel) (e : Edge) : Edge :=
  {| activeTunnel := t; pendingRequests := pendingRequests e;
     sockets := sockets e; responses := responses e |}.

Definition set_pendingRequests (p : list (string * Pending)) (e : Edge) : Edge :=
  {| activeTunnel := activeTunnel e; pendingRequests := p;
     sockets := sockets e; responses := responses e |}.

Definition set_socket (h : nat) (s : Socket) (e : Edge) : Edge :=
  {| activeTunnel := activeTunnel e; pendingRequests := pendingRequests e;
     sockets := <[h := s]> (sockets e); responses := responses e |}.

Definition set_response (h : nat) (r : Response) (e : Edge) : Edge :=
  {| activeTunnel := activeTunnel e; pendingRequests := pendingRequests e;
     sockets := sockets e; responses := <[h := r]> (responses e) |}.

Definition socket (h : nat) (e : Edge) : Socket := sockets e !!! h.

Definition response (h : nat) (e : Edge) : Response := responses e !!! h.

(** A method of [res] that cannot throw. *)
Definition onRes (h : nat) (f : Response -> Response) : M Edge unit :=
  modify (fun e => set_response h (f (response h e)) e).

(** A method of [res] that can throw, leaving [res] as it was. *)
Definition tryRes (h : nat) (f : Response -> completion Response) : M Edge unit :=
  fun e => match f (response h e) with
           | Normal r => (set_response h r e, Normal tt)
           | Thrown err => (e, Thrown err)
           end.

(** [res.status(code).json(body)] *)
Definition status_json (h : nat) (code : Z) (body : ErrorBody) : M Edge unit :=
  (onRes h (Res.status code) ;; tryRes h (Res.json_ body))%js.

(** [ws.send]: throws while CONNECTING, sends when OPEN, and drops the
    frame on a closing or closed socket. *)
Definition ws_send (h : nat) (m : Message) : M Edge unit :=
  fun e =>
    let s := socket h e in
    if readyState s =? 0 then
      (e, Thrown (Error "WebSocket is not open: readyState 0 (CONNECTING)"))
    else if readyState s =? 1 then
      (set_socket h {| readyState := readyState s; sent := sent s ++ [m];
                       messageListeners := messageListeners s;
                       closeListener := closeListener s |} e, Normal tt)
    else (e, Normal tt).

Fixpoint remove_first (k : string) (l : list string) : list string :=
  match l with
  | [] => []
  | x :: r => if bool_decide (x = k) then r else x :: remove_first k r
  end.

Definition ws_on_message (h : nat) (listener : string) : M Edge unit :=
  modify (fun e =>
    let s := socket h e in
    set_socket h {| readyState := readyState s; sent := sent s;
                    messageListeners := messageListeners s ++ [listener];
                    closeListener := closeListener s |} e).

Definition ws_removeListener (h : nat) (listener : string) : M Edge unit :=
  modify (fun e =>
    let s := socket h e in
    set_socket h {| readyState := readyState s; sent := sent s;
                    messageListeners := remove_first listener (messageListeners s);
                    closeListener := closeListener s |} e).

Definition ws_on_close (h : nat) : M Edge unit :=
  modify (fun e =>
    let s := socket h e in
    set_socket h {| readyState := readyState s; sent := sent s;
                    messageListeners := messageListeners s;
                    closeListener := true |} e).

Definition set_readyState (h : nat) (state : Z) (e : Edge) : Edge :=
  let s := socket h e in
  set_socket h {| readyState := state; sent := sent s;
                  messageListeners := messageListeners s;
                  closeListener := closeListener s |} e.

Definition pending_get (requestId : string) : M Edge (option Pending) :=
  gets (fun e => JsMap.get requestId (pendingRequests e)).

Definition pending_set (requestId : string) (p : Pending) : M Edge unit :=
  modify (fun e => set_pendingRequests (JsMap.set requestId p (pendingRequests e)) e).

Definition pending_delete (requestId : string) : M Edge unit :=
  modify (fun e => set_pendingRequests (JsMap.delete requestId (pendingRequests e)) e).

End EdgeOps.
Import EdgeOps.

(** The frames the two sides build, field for field. *)
Module Frames.


(** [{ type: 'request', id, method, url, headers, hasBody }] *)
Definition requestMessage (id method url : string)
    (headers : gmap string string) (hasBody : bool) : Message :=
  {| msg_type := "request"; msg_id := Some id; msg_method := Some method;
     msg_url := Some url; msg_headers := Some headers; msg_hasBody := hasBody;
     msg_body := None; msg_status := None; msg_streaming := false;
     msg_data := None; msg_direction := None; msg_port := None;
     msg_message := None |}.

(** [{ type: 'chunk', id, data }] *)
Definition chunkMessage (id data : string) : Message :=
  {| msg_type := "chunk"; msg_id := Some id; msg_method := None; msg_url := None;
     msg_headers := None; msg_hasBody := false; msg_body := None;
     msg_status := None; msg_streaming := false; msg_data := Some data;
     msg_direction := None; msg_port := None; msg_message := None |}.

(** [{ type: 'end', id, direction: 'request' }] *)
Definition endMessage (id : string) : Message :=
  {| msg_type := "end"; msg_id := Some id; msg_method := None; msg_url := None;
     msg_headers := None; msg_hasBody := false; msg_body := None;
     msg_status := None; msg_streaming := false; msg_data := None;
     msg_direction := Some "request"; msg_port := None; msg_message := None |}.

(** [{ type: 'registered', port }] *)
Definition registeredMessage (port : Z) : Message :=
  {| msg_type := "registered"; msg_id := None; msg_method := None; msg_url := None;
     msg_headers := None; msg_hasBody := false; msg_body := None;
     msg_status := None; msg_streaming := false; msg_data := None;
     msg_direction := None; msg_port := Some port; msg_message := None |}.

(** [{ type: 'register', port }] *)
Definition registerMessage (port : option Z) : Message :=
  {| msg_type := "register"; msg_id := None; msg_method := None; msg_url := None;
     msg_headers := None; msg_hasBody := false; msg_body := None;
     msg_status := None; msg_streaming := false; msg_data := None;
     msg_direction := None; msg_port := port; msg_message := None |}.

(** [{ type: 'error', message }] *)
Definition errorMessage (message : string) : Message :=
  {| msg_type := "error"; msg_id := None; msg_method := None; msg_url := None;
     msg_headers := None; msg_hasBody := false; msg_body := None;
     msg_status := None; msg_streaming := false; msg_data := None;
     msg_direction := None; msg_port := None; msg_message := Some message |}.

End Frames.

Module Bodies.
Definition noActiveTunnel : ErrorBody :=
  {| error := "No active tunnel";
     message := "No tunnel client is currently connected" |}.
Definition tunnelDisconnected : ErrorBody :=
  {| error := "Tunnel disconnected";
     message := "The tunnel connection has been lost" |}.
Definition invalidResponse (e : JsError) : ErrorBody :=
  {| error := "Invalid response from tunnel"; message := error_message e |}.
Definition tunnelCommunication (e : JsError) : ErrorBody :=
  {| error := "Tunnel communication error"; message := error_message e |}.
Definition requestStream (what : string) : ErrorBody :=
  {| error := "Request stream error"; message := what |}.
End Bodies.

Section TunnelManager.
Context `{Base64}.
Open Scope js_scope.

(** [registration.port || 3000] *)
Definition declaredPort (registration : Message) : Z :=
  match msg_port registration with
  | Some p => if p =? 0 then 3000 else p
  | None => 3000
  end.

(** [registerTunnel(ws, registration)]. [this.activeTunnel] is the object
    [{ ws, port, registeredAt }]: it has no [close] property, so the call
    [this.activeTunnel.close()] throws a TypeError. *)
Definition registerTunnel (wsh : nat) (registration : Message) (now : Z)
  : M Edge Tunnel :=
  old ← gets activeTunnel;
  match old with
  | Some _ => throw (TypeError "this.activeTunnel.close is not a function")
  | None => ret tt
  end ;;
  let tunnel := {| ws := wsh; port := declaredPort registration; registeredAt := now |} in
  modify (set_activeTunnel (Some tunnel)) ;;
  ws_on_close wsh ;;
  ret tunnel.

(** The ['close'] listener that [registerTunnel] adds to [ws]. *)
Definition onTunnelClose (wsh : nat) : M Edge unit :=
  t ← gets activeTunnel;
  match t with
  | Some tunnel =>
      if bool_decide (ws tunnel = wsh) then
        modify (set_activeTunnel None) ;;
        entries ← gets pendingRequests;
        for_each entries (fun entry =>
          status_json (res entry.2) 503 Bodies.tunnelDisconnected) ;;
        modify (set_pendingRequests [])
      else ret tt
  | None => ret tt
  end.

(** The channel [wsh] closes: its state becomes CLOSED and its ['close']
    listener, if [registerTunnel] added one, runs. *)
Definition socketClosed (wsh : nat) : M Edge unit :=
  modify (set_readyState wsh 3) ;;
  listening ← gets (fun e => closeListener (socket wsh e));
  when listening (onTunnelClose wsh).

Definition isActive (e : Edge) : bool :=
  match activeTunnel e with
  | Some tunnel => readyState (socket (ws tunnel) e) =? 1
  | None => false
  end.

(** [req.headers['content-length'] && parseInt(req.headers['content-length']) > 0],
    as a truth value. *)
Definition hasBody (req : Request) : bool :=
  match headers req !! "content-length" with
  | Some s =>
      negb (bool_decide (s = ""))
      && match ParseInt.parseInt s with Some n => 0 <? n | None => false end
  | None => false
  end.

(** [this.activeTunnel.ws.removeListener('message', handler)], guarded by
    [if (this.activeTunnel && this.activeTunnel.ws)]. *)
Definition removeListenerGuarded (requestId : string) : M Edge unit :=
  t ← gets activeTunnel;
  match t with
  | Some tunnel => ws_removeListener (ws tunnel) requestId
  | None => ret tt
  end.

(** The same call without the guard: a TypeError when there is no tunnel. *)
Definition removeListenerUnguarded (requestId : string) : M Edge unit :=
  t ← gets activeTunnel;
  match t with
  | Some tunnel => ws_removeListener (ws tunnel) requestId
  | None => throw (TypeError "Cannot read properties of null (reading 'ws')")
  end.

Definition setResponseStarted (requestId : string) (pendingReq : Pending) : M Edge unit :=
  pending_set requestId {| res := res pendingReq; responseStarted := true |}.

(** [pending.responseHandler], the ['message'] listener of one request. *)
Definition responseHandler (requestId : string) (data : Wire) : M Edge unit :=
  try_catch
    match data with
    | Unparseable what => throw (SyntaxError what)
    | Parsed message =>
        if negb (bool_decide (msg_id message = Some requestId)) then ret tt
        else
          found ← pending_get requestId;
          match found with
          | None => ret tt
          | Some pendingReq =>
              let r := res pendingReq in
              if bool_decide (msg_type message = "response") then
                match msg_headers message with
                | Some hs =>
                    for_each (map_to_list hs) (fun kv =>
                      tryRes r (Res.setHeader kv.1 kv.2))
                | None => ret tt
                end ;;
                onRes r (Res.status
                           match msg_status message with
                           | Some s => if s =? 0 then 200 else s
                           | None => 200
                           end) ;;
                setResponseStarted requestId pendingReq ;;
                match msg_body message with
                | Some body =>
                    when (truthy (Some body)) (tryRes r (Res.write (from_base64 body)))
                | None => ret tt
                end ;;
                when (negb (msg_streaming message))
                  (tryRes r Res.end_ ;;
                   pending_delete requestId ;;
                   removeListenerGuarded requestId)
              else if bool_decide (msg_type message = "chunk") then
                sent0 ← gets (fun e => headersSent (response r e));
                let start := negb (responseStarted pendingReq) && negb sent0 in
                when start
                  (onRes r (Res.status 200) ;;
                   setResponseStarted requestId pendingReq) ;;
                let started := responseStarted pendingReq || start in
                sent1 ← gets (fun e => headersSent (response r e));
                when (negb sent1 || started)
                  match msg_data message with
                  | Some data => tryRes r (Res.write (from_base64 data))
                  | None =>
                      throw (TypeError "The first argument must be of type string or an instance of Buffer, ArrayBuffer, or Array or an Array-like Object. Received undefined")
                  end
              else if bool_decide (msg_type message = "end") then
                sent0 ← gets (fun e => headersSent (response r e));
                when (negb (responseStarted pendingReq) && negb sent0)
                  (onRes r (Res.status 200)) ;;
                sent1 ← gets (fun e => headersSent (response r e));
                when (negb sent1 || responseStarted pendingReq)
                  (tryRes r Res.end_) ;;
                pending_delete requestId ;;
                removeListenerGuarded requestId
              else ret tt
          end
    end
    (fun error =>
       found ← pending_get requestId;
       match found with
       | Some pendingReq =>
           (if negb (responseStarted pendingReq)
            then status_json (res pendingReq) 500 (Bodies.invalidResponse error)
            else tryRes (res pendingReq) Res.end_) ;;
           pending_delete requestId ;;
           removeListenerGuarded requestId
       | None => ret tt
       end).

(** [forwardRequest(req, res)], up to the point where it has sent the
    [request] frame; [requestId] is the id it mints from the clock and the
    random source. The listeners it adds to [req] and its timer are the
    handlers that follow. *)
Definition forwardRequest (requestId : string) (req : Request) (resh : nat)
  : M Edge unit :=
  sent0 ← gets (fun e => headersSent (response resh e));
  if sent0 then ret tt
  else
    active ← gets isActive;
    if negb active then
      sent1 ← gets (fun e => headersSent (response resh e));
      when (negb sent1) (status_json resh 503 Bodies.noActiveTunnel)
    else
      pending_set requestId {| res := resh; responseStarted := false |} ;;
      t ← gets activeTunnel;
      match t with
      | None => throw (TypeError "Cannot read properties of null (reading 'ws')")
      | Some tunnel =>
          ws_on_message (ws tunnel) requestId ;;
          let requestMessage :=
            Frames.requestMessage requestId (method req) (url req)
              (sanitizeHeaders (headers req)) (hasBody req) in
          try_catch (ws_send (ws tunnel) requestMessage)
            (fun error =>
               pending_delete requestId ;;
               status_json resh 500 (Bodies.tunnelCommunication error))
      end.

(** [req.on('data', chunk => ...)] *)
Definition onRequestData (requestId : string) (chunk : Buffer) : M Edge unit :=
  t ← gets activeTunnel;
  match t with
  | Some tunnel =>
      state ← gets (fun e => readyState (socket (ws tunnel) e));
      when (state =? 1)
        (let chunkMessage := Frames.chunkMessage requestId (to_base64 chunk) in
         try_catch (ws_send (ws tunnel) chunkMessage) (fun _ => ret tt))
  | None => ret tt
  end.

(** [req.on('end', () => ...)] *)
Definition onRequestEnd (requestId : string) : M Edge unit :=
  t ← gets activeTunnel;
  match t with
  | Some tunnel =>
      state ← gets (fun e => readyState (socket (ws tunnel) e));
      when (state =? 1)
        (let endMessage := Frames.endMessage requestId in
         try_catch (ws_send (ws tunnel) endMessage) (fun _ => ret tt))
  | None => ret tt
  end.

(** [req.on('error', error => ...)] *)
Definition onRequestError (requestId : string) (what : string) : M Edge unit :=
  found ← pending_get requestId;
  match found with
  | Some pendingReq =>
      when (negb (responseStarted pendingReq))
        (status_json (res pendingReq) 500 (Bodies.requestStream what)) ;;
      pending_delete requestId ;;
      removeListenerUnguarded requestId
  | None => ret tt
  end.


(** [getStatus()]; [now] is [Date.now()]. *)
Definition getStatus (now : Z) (e : Edge) : Status :=
  match activeTunnel e with
  | None => {| connected := false; status_port := None; uptime := None |}
  | Some tunnel =>
      {| connected := isActive e;
         status_port := Some (port tunnel);
         uptime := Some (now - registeredAt tunnel) |}
  end.

(** The [register] branch of the ['message'] listener of [server.js]:
    [registerTunnel], then the [registered] frame; an exception is
    answered with an [error] frame. *)
Definition serverOnRegister (wsh : nat) (message : Message) (now : Z) : M Edge unit :=
  try_catch
    (tunnel ← registerTunnel wsh message now;
     ws_send wsh (Frames.registeredMessage (port tunnel)))
    (fun error => ws_send wsh (Frames.errorMessage (error_message error))).

End TunnelManager.

(** ** The client dispatcher ([client/lib/tunnel.js]) *)

(** The outbound request to the local service ([http.request]): what was
    written to it and whether it was ended. *)
Record LocalRequest := {
  local_method : option string;
  local_path : option string;
  local_headers : gmap string string;
  written : list Buffer;
  ended : bool
}.

Global Instance LocalRequest_inhabited : Inhabited LocalRequest :=
  populate {| local_method := None; local_path := None; local_headers := ∅;
              written := []; ended := false |}.

(** [localPort] is the port [connectOnce] was called with;
    [pendingRequests] maps a frame's [id] (which [undefined] can be) to the
    entry [{ req, chunks }]; [localRequests] is the store of the requests
    made so far, a request's handle being its index. *)
Record Client := {
  localPort : Z;
  clientPending : list (option string * nat);
  localRequests : list LocalRequest
}.

Module ClientOps.

Definition set_clientPending (p : list (option string * nat)) (c : Client) : Client :=
  {| localPort := localPort c; clientPending := p; localRequests := localRequests c |}.

Definition localRequest (h : nat) (c : Client) : LocalRequest := localRequests c !!! h.

Definition onReq (h : nat) (f : LocalRequest -> LocalRequest) : M Client unit :=
  modify (fun c => {| localPort := localPort c; clientPending := clientPending c;
                      localRequests := alter f h (localRequests c) |}).

(** [req.write(chunk)]; nothing is written to an ended request. *)
Definition write (chunk : Buffer) (r : LocalRequest) : LocalRequest :=
  if ended r then r
  else {| local_method := local_method r; local_path := local_path r;
          local_headers := local_headers r; written := written r ++ [chunk];
          ended := false |}.

(** [req.end()] *)
Definition end_ (r : LocalRequest) : LocalRequest :=
  {| local_method := local_method r; local_path := local_path r;
     local_headers := local_headers r; written := written r; ended := true |}.

(** What [http.request] checks before it returns: the method, when there
    is one, is a token; the path, when there is one, has no character
    outside [\u0021-\u00ff]; every header has a name and a value that
    [setHeader] takes; the port is one [net.connect] takes. The first that
    fails is thrown; of several rejected headers the one reported is the
    first in the order of the map, which is not the order of the object's
    keys (the listener only logs the error). *)
Definition rejection (port : Z) (method path : option string)
    (headers : gmap string string) : option JsError :=
  if negb (Http.isPath (default "" path)) then Some ERR_UNESCAPED_CHARACTERS
  else if negb (bool_decide (default "" method = "")) && negb (Http.isToken (default "" method))
  then Some (ERR_INVALID_HTTP_TOKEN "Method" (default "" method))
  else
    match filter (fun kv => negb (Http.isToken kv.1 && Http.isHeaderValue kv.2))
                 (map_to_list headers) with
    | kv :: _ =>
        Some (if Http.isToken kv.1 then ERR_INVALID_CHAR kv.1
              else ERR_INVALID_HTTP_TOKEN "Header name" kv.1)
    | [] => if Http.validPort port then None else Some (ERR_SOCKET_BAD_PORT port)
    end.

(** [http.request(options, callback)] with the host [localhost] and the
    port of the client: a new request object, unless the options are
    rejected. *)
Definition http_request (method path : option string) (headers : gmap string string)
  : M Client nat :=
  fun c =>
    match rejection (localPort c) method path headers with
    | Some err => (c, Thrown err)
    | None =>
        let h := List.length (localRequests c) in
        ({| localPort := localPort c; clientPending := clientPending c;
            localRequests := localRequests c ++
              [ {| local_method := method; local_path := path; local_headers := headers;
                   written := []; ended := false |} ] |}, Normal h)
    end.

End ClientOps.

Section ClientDispatcher.
Context `{Base64}.
Open Scope js_scope.
Import ClientOps.

(** [forwardToLocal(message, localPort, ws)], the request side: the
    listeners on the local response only send frames back. *)
Definition forwardToLocal (message : Message) : M Client unit :=
  let id := msg_id message in
  req ← http_request (msg_method message) (msg_url message)
          (default ∅ (msg_headers message));
  modify (fun c => set_clientPending (JsMap.set id req (clientPending c)) c) ;;
  if truthy (msg_body message) then
    onReq req (write (from_base64 (default "" (msg_body message)))) ;;
    onReq req end_ ;;
    modify (fun c => set_clientPending (JsMap.delete id (clientPending c)) c)
  else if negb (msg_hasBody message) then
    onReq req end_ ;;
    modify (fun c => set_clientPending (JsMap.delete id (clientPending c)) c)
  else ret tt.

Definition handleRequestChunk (message : Message) : M Client unit :=
  pending ← gets (fun c => JsMap.get (msg_id message) (clientPending c));
  match pending with
  | None => ret tt
  | Some req =>
      match msg_data message with
      | Some data => onReq req (write (from_base64 data))
      | None =>
          throw (TypeError "The first argument must be of type string or an instance of Buffer, ArrayBuffer, or Array or an Array-like Object. Received undefined")
      end
  end.

Definition handleRequestEnd (message : Message) : M Client unit :=
  pending ← gets (fun c => JsMap.get (msg_id message) (clientPending c));
  match pending with
  | None => ret tt
  | Some req =>
      onReq req end_ ;;
      modify (fun c => set_clientPending (JsMap.delete (msg_id message) (clientPending c)) c)
  end.

(** The ['message'] listener of [connectOnce]; the [registered] and
    [error] branches only log. *)
Definition clientOnMessage (data : Wire) : M Client unit :=
  try_catch
    match data with
    | Unparseable what => throw (SyntaxError what)
    | Parsed message =>
        if bool_decide (msg_type message = "registered") then ret tt
        else if bool_decide (msg_type message = "request") then
          forwardToLocal message
        else if bool_decide (msg_type message = "chunk")
                && bool_decide (msg_direction message = Some "request") then
          handleRequestChunk message
        else if bool_decide (msg_type message = "end")
                && bool_decide (msg_direction message = Some "request") then
          handleRequestEnd message
        else ret tt
    end
    (fun _ => ret tt).

(** The frames of a list, delivered in order. *)
Definition deliver (frames : list Message) : M Client unit :=
  for_each frames (fun m => clientOnMessage (Parsed m)).

End ClientDispatcher.


(** ** The reconnection controller ([client/lib/reconnect.js]) *)

(** [maxAttempts] is [None] for [Infinity]; [reconnectTimeout] holds the
    delay of the pending timer. *)
Record ReconnectManager := {
  attempts : Z;
  maxAttempts : option Z;
  baseDelay : Z;
  maxDelay : Z;
  reconnectTimeout : option Z;
  isReconnecting : bool
}.

Record ReconnectOptions := {
  opt_maxAttempts : option Z;
  opt_baseDelay : option Z;
  opt_maxDelay : option Z
}.

(** What [reconnect] did: nothing, or a timer for this attempt and delay. *)
Inductive ReconnectStep :=
  | AlreadyReconnecting
  | Scheduled (attempt delay : Z).

Module Reconnect.
Open Scope js_scope.

(** [x || fallback] on a number that may be absent. *)
Definition or_default (x : option Z) (fallback : Z) : Z :=
  match x with
  | Some v => if v =? 0 then fallback else v
  | None => fallback
  end.

(** [new ReconnectManager(options)] *)
Definition new (options : ReconnectOptions) : ReconnectManager :=
  {| attempts := 0;
     maxAttempts := match opt_maxAttempts options with
                    | Some v => if v =? 0 then None else Some v
                    | None => None
                    end;
     baseDelay := or_default (opt_baseDelay options) 1000;
     maxDelay := or_default (opt_maxDelay options) 60000;
     reconnectTimeout := None;
     isReconnecting := false |}.

(** The manager of [createTunnel], which sets no numeric option. *)
Definition defaults : ReconnectManager :=
  new {| opt_maxAttempts := None; opt_baseDelay := None; opt_maxDelay := None |}.

(** [Math.min(this.baseDelay * Math.pow(2, this.attempts), this.maxDelay)] *)
Definition backoff (m : ReconnectManager) : Z :=
  Z.min (baseDelay m * 2 ^ attempts m) (maxDelay m).

(** [getDelay()], with [Math.random()] the fraction [num / den] and
    [0.3] the fraction [3 / 10]:
    [Math.floor(delay + random * 0.3 * delay)]. *)
Definition getDelay (num den : Z) (m : ReconnectManager) : Z :=
  let delay := backoff m in
  (10 * den * delay + num * 3 * delay) / (10 * den).

Definition update (attempts : Z) (timeout : option Z) (reconnecting : bool)
    (m : ReconnectManager) : ReconnectManager :=
  {| attempts := attempts; maxAttempts := maxAttempts m; baseDelay := baseDelay m;
     maxDelay := maxDelay m; reconnectTimeout := timeout;
     isReconnecting := reconnecting |}.

(** [reconnect(connectFn)] up to the [setTimeout] call. *)
Definition reconnect (num den : Z) : M ReconnectManager ReconnectStep :=
  busy ← gets isReconnecting;
  if busy then ret AlreadyReconnecting
  else
    modify (fun m => update (attempts m + 1) (reconnectTimeout m) true m) ;;
    over ← gets (fun m => match maxAttempts m with
                          | Some most => most <? attempts m
                          | None => false
                          end);
    if over then
      modify (fun m => update (attempts m) (reconnectTimeout m) false m) ;;
      throw (Error "Max reconnection attempts reached")
    else
      delay ← gets (getDelay num den);
      n ← gets attempts;
      modify (fun m => update (attempts m) (Some delay) true m) ;;
      ret (Scheduled n delay).

(** The timer's callback: [connected] tells whether [connectFn] resolved;
    when it rejected, [reconnect] runs again. *)
Definition timerFired (connected : bool) (num den : Z)
  : M ReconnectManager (option ReconnectStep) :=
  if connected then
    modify (fun m => update 0 (reconnectTimeout m) false m) ;;
    ret None
  else
    modify (fun m => update (attempts m) (reconnectTimeout m) false m) ;;
    step ← reconnect num den;
    ret (Some step).

(** [reset()] *)
Definition reset (m : ReconnectManager) : ReconnectManager := update 0 None false m.

(** [cancel()] *)
Definition cancel (m : ReconnectManager) : ReconnectManager := update 0 None false m.

End Reconnect.

(** ** The configuration file ([client/lib/config.js]) *)

(** The value of a property of a parsed JSON object. *)
Inductive JsValue :=
  | JUndefined
  | JNull
  | JBool (b : bool)
  | JNumber (n : Z)
  | JString (s : string).

Definition isTruthy (v : JsValue) : bool :=
  match v with
  | JUndefined | JNull => false
  | JBool b => b
  | JNumber n => negb (n =? 0)
  | JString s => negb (bool_decide (s = ""))
  end.

(** The three properties of the configuration object that the code reads
    or writes. *)
Record ConfigObject := { domain : JsValue; createdAt : JsValue; updatedAt : JsValue }.

(** The text of [config.json] as [JSON.parse] sees it: rejected (with the
    message of the SyntaxError), [null], or a
    value with properties (what [JSON.stringify] wrote parses back to the
    same object). *)
Inductive FileContent :=
  | NotJson (what : string)
  | JsonNull
  | JsonObject (o : ConfigObject).

(** [new URL(text)] is the platform's parser: [url_parses] tells whether it
    returns. *)
Class UrlParser := { url_parses : string -> bool }.

(** A parser for the examples: a scheme, [://], and a host that is not
    empty. *)
Module SchemeHost.

Definition host_of (s : string) : option string :=
  if Js.startsWith s "http://" then Some (String.substring 7 (String.length s) s)
  else if Js.startsWith s "https://" then Some (String.substring 8 (String.length s) s)
  else None.

Definition parses (s : string) : bool :=
  match host_of s with
  | Some (String c _) => negb (bool_decide (c = "/"%char))
  | _ => false
  end.

Definition parser : UrlParser := {| url_parses := parses |}.

End SchemeHost.

Section Config.
Context `{UrlParser}.
Open Scope js_scope.

(** [domain.trim().replace(/\/$/, '')] *)
Definition normalize (domain : string) : string :=
  Js.stripTrailingSlash (Js.trim domain).

(** [existingConfig?.createdAt || new Date().toISOString()] *)
Definition createdAtOr (existing : option FileContent) (now : string) : JsValue :=
  match existing with
  | Some (JsonObject o) => if isTruthy (createdAt o) then createdAt o else JString now
  | _ => JString now
  end.

(** [initConfig(domain)]; the state is the content of the file, [None]
    when there is none; [now1] and [now2] are the two readings of the
    clock, as ISO strings. Creating the directory and writing the file
    succeed. *)
Definition initConfig (domain : JsValue) (now1 now2 : string)
  : M (option FileContent) ConfigObject :=
  match domain with
  | JString text =>
      if bool_decide (text = "") then throw (Error "Domain is required")
      else
        let domain := normalize text in
        if negb (Js.startsWith domain "http://") && negb (Js.startsWith domain "https://")
        then throw (Error "Domain must start with http:// or https://")
        else if negb (url_parses domain) then throw (Error "Invalid domain URL format")
        else
          existingConfig ← gets (fun file => file);
          let config := {| domain := JString domain;
                           createdAt := createdAtOr existingConfig now1;
                           updatedAt := JString now2 |} in
          modify (fun _ => Some (JsonObject config)) ;;
          ret config
  | _ => throw (Error "Domain is required")
  end.



End Config.

(** ** A run of the edge, used where the code is evaluated

    Two channels (1 and 2), both open, and two public responses (7 and 8),
    both untouched. A client registers on channel 1 with port 8080 at time
    1000; a [POST /upload] with a two-byte body is forwarded as [req_1]. *)

Module Scenario.
#[local] Existing Instance StdBase64.codec.

Definition openSocket : Socket :=
  {| readyState := 1; sent := []; messageListeners := []; closeListener := false |}.

Definition start : Edge :=
  newTunnelManager (<[1%nat := openSocket]> (<[2%nat := openSocket]> ∅))
                   (<[7%nat := freshResponse]> (<[8%nat := freshResponse]> ∅)).

Definition post : Request :=
  {| method := "POST"; url := "/upload";
     headers := <["content-length" := "2"]> (<["connection" := "keep-alive"]> ∅) |}.

Definition registered : Edge :=
  (serverOnRegister 1 (Frames.registerMessage (Some 8080)) 1000 start).1.

(** [req_1] is in flight and nothing has come back. *)
Definition awaiting : Edge := (forwardRequest "req_1" post 7 registered).1.

(** [{ type: 'response', id: 'req_1', status: 200, headers: {}, streaming: true }] *)
Definition streamingHead : Message :=
  {| msg_type := "response"; msg_id := Some "req_1"; msg_method := None;
     msg_url := None; msg_headers := Some ∅; msg_hasBody := false;
     msg_body := None; msg_status := Some 200; msg_streaming := true;
     msg_data := None; msg_direction := None; msg_port := None;
     msg_message := None |}.

(** The head of a streamed response has arrived; no body yet. *)
Definition streaming : Edge :=
  (responseHandler "req_1" (Parsed streamingHead) awaiting).1.

(** One chunk of the body has arrived and has been written. *)
Definition flushed : Edge :=
  (responseHandler "req_1" (Parsed (Frames.chunkMessage "req_1" "aGk=")) streaming).1.





(** The body of the [POST] arrives in one fragment and ends. *)
Definition uploaded : Edge :=
  (onRequestEnd "req_1" (onRequestData "req_1" [x68; x69] awaiting).1).1.

Definition newClient : Client :=
  {| localPort := 3000; clientPending := []; localRequests := [] |}.




End Scenario.

(** ** The address of the channel ([connectOnce]) *)

Module Connect.

(** [s.slice(n)] *)
Fixpoint slice (n : nat) (s : string) : string :=
  match n, s with
  | O, _ => s
  | S n', String _ r => slice n' r
  | S _, EmptyString => EmptyString
  end.

(** [s.replace(/^https?:\/\//, 'wss://')] *)
Definition replaceHttpOrHttps (s : string) : string :=
  if Js.startsWith s "https://" then "wss://" ++ slice 8 s
  else if Js.startsWith s "http://" then "wss://" ++ slice 7 s
  else s.

(** [s.replace(/^http:\/\//, 'ws://')] *)
Definition replaceHttp (s : string) : string :=
  if Js.startsWith s "http://" then "ws://" ++ slice 7 s else s.

(** [wsUrl] and [connectUrl] of [connectOnce]. *)
Definition wsUrl (serverUrl : string) : string :=
  replaceHttp (replaceHttpOrHttps serverUrl).

Definition connectUrl (serverUrl : string) : string := wsUrl serverUrl ++ "/connect".

End Connect.

(** The frames that carry a request body to the client:
    [{ type: 'chunk', id, data, direction: 'request' }] and
    [{ type: 'end', id, direction: 'request' }]. *)
Module ClientFrames.

Definition requestChunk (id : option string) (data : string) : Message :=
  {| msg_type := "chunk"; msg_id := id; msg_method := None; msg_url := None;
     msg_headers := None; msg_hasBody := false; msg_body := None;
     msg_status := None; msg_streaming := false; msg_data := Some data;
     msg_direction := Some "request"; msg_port := None; msg_message := None |}.


End ClientFrames.

(** ** The uptime shown by [status] ([client/lib/status.js]) *)

Module StatusDisplay.

(** [formatUptime(ms)]; [ms] is a whole number of milliseconds, the
    difference of two timestamps, or [None] for [NaN]. A number is printed in
    decimal. *)
Definition formatUptime (ms : option Z) : string :=
  match ms with
  | None => "N/A"
  | Some ms =>
      if (ms =? 0) || (ms <? 0) then "N/A"
      else
        let seconds := ms / 1000 in
        let minutes := seconds / 60 in
        let hours := minutes / 60 in
        let days := hours / 24 in
        if 0 <? days then
          pretty days ++ "d " ++ pretty (hours mod 24) ++ "h "
            ++ pretty (minutes mod 60) ++ "m"
        else if 0 <? hours then
          pretty hours ++ "h " ++ pretty (minutes mod 60) ++ "m "
            ++ pretty (seconds mod 60) ++ "s"
        else if 0 <? minutes then
          pretty minutes ++ "m " ++ pretty (seconds mod 60) ++ "s"
        else pretty seconds ++ "s"
  end.

End StatusDisplay.

(** ** Public responses as the handlers leave them *)

Module Outcome.

(** The response completed by [res.status(code).json(body)]. *)
Definition answered (code : Z) (body : ErrorBody) (r : Response) : Response :=
  {| statusCode := code; resHeaders := resHeaders r; phase := Finished code;
     chunks := chunks r; json := Some body |}.



(** The response after [res.end()] has returned. *)
Definition ended (r : Response) : Response :=
  {| statusCode := statusCode r; resHeaders := resHeaders r;
     phase := Finished match phase r with
                       | Fresh => statusCode r
                       | HeadersSent code | Finished code => code
                       end;
     chunks := chunks r; json := json r |}.

(** The response, not finished before, after [res.write(chunk)] has
    returned. *)
Definition wrote (chunk : Buffer) (r : Response) : Response :=
  {| statusCode := statusCode r; resHeaders := resHeaders r;
     phase := HeadersSent match phase r with
                          | Fresh => statusCode r
                          | HeadersSent code | Finished code => code
                          end;
     chunks := chunks r ++ [chunk]; json := json r |}.




End Outcome.

(** ** The events of one request body *)

Section BodyPump.
Context `{Base64}.
Open Scope js_scope.

(** The ['data'] events of [req], one per fragment, then its ['end']
    event. *)
Definition pumpBody (requestId : string) (fragments : list Buffer) : M Edge unit :=
  for_each fragments (onRequestData requestId) ;;
  onRequestEnd requestId.

End BodyPump.

(** * Properties *)

(** ** Sanity checks of the library models *)

Example base64_encode_hi : StdBase64.encode [x68; x69] = "aGk=".
Proof. reflexivity. Qed.

Example base64_decode_hi : StdBase64.decode "aGk=" = [x68; x69].
Proof. reflexivity. Qed.

Example parseInt_examples :
  ParseInt.parseInt " 42px" = Some 42 /\ ParseInt.parseInt "0x1f" = Some 31
  /\ ParseInt.parseInt "-7" = Some (-7) /\ ParseInt.parseInt "abc" = None.
Proof. repeat split. Qed.

(** ** [Map] *)

Section JsMapFacts.
Context {K : Type} `{EqDecision K} {V : Type}.
Implicit Types (k : K) (v : V) (m : list (K * V)).
Import JsMap.

Lemma get_delete_eq k m : get k (delete k m) = None.
Proof.
  induction m as [|[k' v'] r IH]; simpl; [done|].
  case_bool_decide as E; [done|]. simpl. by rewrite bool_decide_false.
Qed.


Lemma delete_absent k m : get k m = None -> delete k m = m.
Proof.
  induction m as [|[k0 v0] r IH]; simpl; [done|].
  case_bool_decide; [done|]. intros Hr. by rewrite IH.
Qed.

Lemma get_set_eq k v m : get k (set k v m) = Some v.
Proof.
  induction m as [|[k0 v0] r IH]; simpl.
  - by rewrite bool_decide_true.
  - case_bool_decide as E; simpl.
    + by rewrite bool_decide_true.
    + by rewrite bool_decide_false.
Qed.

Lemma get_set_ne k k' v m : k ≠ k' -> get k' (set k v m) = get k' m.
Proof.
  intros Hne. induction m as [|[k0 v0] r IH]; simpl.
  - by rewrite bool_decide_false.
  - case_bool_decide as E; simpl.
    + subst. by rewrite !bool_decide_false.
    + by rewrite IH.
Qed.

End JsMapFacts.

(** ** Header sanitization *)

Lemma sanitizeHeaders_filter (headers : gmap string string) :
  sanitizeHeaders headers = filter (fun kv => is_hop kv.1 = false) headers.
Proof.
  unfold sanitizeHeaders.
  apply (map_fold_weak_ind (fun acc m => acc = filter (fun kv => is_hop kv.1 = false) m)).
  - by rewrite map_filter_empty.
  - intros k v m acc Hk ->. simpl.
    destruct (is_hop k) eqn:E.
    + rewrite map_filter_insert_False; [|simpl; congruence].
      by rewrite delete_id.
    + by rewrite map_filter_insert_True.
Qed.

Lemma sanitizeHeaders_lookup (headers : gmap string string) (key : string) :
  sanitizeHeaders headers !! key = if is_hop key then None else headers !! key.
Proof.
  rewrite sanitizeHeaders_filter.
  destruct (is_hop key) eqn:E.
  - apply map_lookup_filter_None. right. intros v _. simpl. congruence.
  - destruct (headers !! key) as [v|] eqn:L.
    + apply map_lookup_filter_Some. by split.
    + apply map_lookup_filter_None. by left.
Qed.

(** C4. For every header object and every key, the sanitized object has no
    entry under the key when its lower-case form is one of the eight
    hop-by-hop names, and has the entry of the input, unchanged, under every
    other key. *)
Theorem sanitizeHeaders_strips_hop_by_hop (headers : gmap string string) (key : string) :
  sanitizeHeaders headers !! key
  = if bool_decide (Js.toLowerCase key ∈
        [ "connection"; "keep-alive"; "proxy-authenticate"; "proxy-authorization";
          "te"; "trailers"; "transfer-encoding"; "upgrade" ])
    then None else headers !! key.
Proof. apply sanitizeHeaders_lookup. Qed.

Example sanitizeHeaders_example :
  map_to_list (sanitizeHeaders
    (<["Keep-Alive" := "timeout=5"]> (<["TE" := "trailers"]>
      (<["Host" := "edge.example"]> (<["X-Trace" := "1"]> ∅)))))
  = [("X-Trace", "1"); ("Host", "edge.example")].
Proof. vm_compute. reflexivity. Qed.

(** ** The stores of the edge *)

Section EdgeFacts.
Implicit Types (e : Edge) (h : nat) (r : Response).

Lemma response_set_response_eq h r e : response h (set_response h r e) = r.
Proof. unfold response, set_response. simpl. apply lookup_total_insert_eq. Qed.


Lemma response_set_socket h hs s e : response h (set_socket hs s e) = response h e.
Proof. reflexivity. Qed.

Lemma response_set_pendingRequests h p e : response h (set_pendingRequests p e) = response h e.
Proof. reflexivity. Qed.

Lemma socket_set_socket_eq h (s : Socket) e : socket h (set_socket h s e) = s.
Proof. unfold socket, set_socket. simpl. apply lookup_total_insert_eq. Qed.

Lemma socket_set_pendingRequests h p e : socket h (set_pendingRequests p e) = socket h e.
Proof. reflexivity. Qed.



Lemma write_fresh (chunk : Buffer) r :
  phase r = Fresh ->
  Http.validStatus (statusCode r) = true ->
  Res.write chunk r = Normal (Outcome.wrote chunk r).
Proof.
  intros Hfresh Hvalid. unfold Res.write, Outcome.wrote. by rewrite Hfresh, Hvalid.
Qed.



End EdgeFacts.

(** ** Forwarding *)

(** On an open tunnel, [forwardRequest] with an untouched response puts the
    record in the table, not started, leaves the response untouched, and
    sends the [request] frame with the sanitized headers. *)
Lemma forwardRequest_awaits (e : Edge) (t : Tunnel) (requestId : string)
    (req : Request) (resh : nat) :
  activeTunnel e = Some t ->
  readyState (socket (ws t) e) = 1 ->
  phase (response resh e) = Fresh ->
  let out := forwardRequest requestId req resh e in
  out.2 = Normal tt
  /\ JsMap.get requestId (pendingRequests out.1)
     = Some {| res := resh; responseStarted := false |}
  /\ phase (response resh out.1) = Fresh
  /\ sent (socket (ws t) out.1)
     = (sent (socket (ws t) e)
        ++ [ Frames.requestMessage requestId (method req) (url req)
               (sanitizeHeaders (headers req)) (hasBody req) ])%list.
Proof.
  intros Ht Hopen Hfresh out. subst out.
  unfold forwardRequest, bind, gets, isActive, headersSent.
  rewrite Hfresh, Ht, Hopen. simpl. rewrite Ht. simpl.
  unfold try_catch, ws_send, ws_on_message, modify. simpl.
  rewrite !socket_set_socket_eq, !socket_set_pendingRequests. simpl.
  rewrite Hopen. simpl.
  repeat split.
  - apply get_set_eq.
  - exact Hfresh.
  - by rewrite socket_set_socket_eq.
Qed.

(** ** The deadline *)




(** ** Chunk before head *)

(** C7. A record that awaits its head (no response started, nothing of the
    public response out) and receives a [chunk] frame with its id: the
    handler returns, the status is 200, the decoded bytes are appended to the
    body and the head is out with status 200, and the record stays in the
    table, now marked as started; no other record changes. *)
Theorem chunk_before_head_starts_200 `{Base64}
    (e : Edge) (requestId data : string) (p : Pending) (frame : Message) :
  JsMap.get requestId (pendingRequests e) = Some p ->
  responseStarted p = false ->
  phase (response (res p) e) = Fresh ->
  msg_type frame = "chunk" ->
  msg_id frame = Some requestId ->
  msg_data frame = Some data ->
  let out := responseHandler requestId (Parsed frame) e in
  out.2 = Normal tt
  /\ response (res p) out.1
     = {| statusCode := 200;
          resHeaders := resHeaders (response (res p) e);
          phase := HeadersSent 200;
          chunks := chunks (response (res p) e) ++ [from_base64 data];
          json := json (response (res p) e) |}
  /\ JsMap.get requestId (pendingRequests out.1)
     = Some {| res := res p; responseStarted := true |}
  /\ (forall other, other ≠ requestId ->
        JsMap.get other (pendingRequests out.1) = JsMap.get other (pendingRequests e)).
Proof.
  intros Hget Hstarted Hfresh Htype Hid Hdata out.
  assert (Hout : out =
    (set_response (res p)
       (Outcome.wrote (from_base64 data) (Res.status 200 (response (res p) e)))
       (set_pendingRequests
          (JsMap.set requestId {| res := res p; responseStarted := true |}
             (pendingRequests e))
          (set_response (res p) (Res.status 200 (response (res p) e)) e)),
     Normal tt)).
  { subst out. unfold responseHandler, try_catch, bind, pending_get, gets.
    rewrite Hid, bool_decide_true by done. simpl.
    rewrite Hget, Htype. simpl.
    rewrite Hstarted. unfold headersSent. rewrite Hfresh. simpl.
    unfold onRes, setResponseStarted, pending_set, modify, bind. simpl.
    rewrite response_set_pendingRequests, response_set_response_eq. simpl.
    rewrite Hfresh, Hdata. simpl.
    unfold tryRes. rewrite response_set_pendingRequests, response_set_response_eq.
    by rewrite write_fresh. }
  rewrite Hout. simpl. repeat split.
  - rewrite response_set_response_eq. unfold Outcome.wrote. simpl. by rewrite Hfresh.
  - apply get_set_eq.
  - intros other Hne. by apply get_set_ne.
Qed.

(** The first frame for [req_1] is a chunk. *)
Lemma chunk_before_head_starts_200_witness :
  let out := responseHandler (H := StdBase64.codec) "req_1"
               (Parsed (Frames.chunkMessage "req_1" "aGk=")) Scenario.awaiting in
  out.2 = Normal tt
  /\ statusCode (response 7 out.1) = 200
  /\ phase (response 7 out.1) = HeadersSent 200
  /\ chunks (response 7 out.1) = [[x68; x69]]
  /\ JsMap.get "req_1" (pendingRequests out.1)
     = Some {| res := 7; responseStarted := true |}.
Proof.
  assert (Hget : JsMap.get "req_1" (pendingRequests Scenario.awaiting)
                 = Some {| res := 7; responseStarted := false |})
    by (vm_compute; reflexivity).
  assert (Hfresh : phase (response 7 Scenario.awaiting) = Fresh)
    by (vm_compute; reflexivity).
  destruct (chunk_before_head_starts_200 (H := StdBase64.codec) Scenario.awaiting
              "req_1" "aGk=" {| res := 7; responseStarted := false |}
              (Frames.chunkMessage "req_1" "aGk=")
              Hget eq_refl Hfresh eq_refl eq_refl eq_refl)
    as [Hnormal [Hres [Hpending _]]].
  simpl in Hres. cbv zeta. rewrite Hres. simpl.
  repeat split; assumption.
Defined.

(** ** Status *)

Lemma getStatus_unfold (now : Z) (e : Edge) :
  getStatus now e
  = match activeTunnel e with
    | Some tunnel =>
        {| connected := bool_decide (readyState (socket (ws tunnel) e) = 1);
           status_port := Some (port tunnel);
           uptime := Some (now - registeredAt tunnel) |}
    | None => {| connected := false; status_port := None; uptime := None |}
    end.
Proof.
  unfold getStatus, isActive. destruct (activeTunnel e) as [t|]; [|reflexivity].
  f_equal. destruct (Z.eqb_spec (readyState (socket (ws t) e)) 1).
  - by rewrite bool_decide_true.
  - by rewrite bool_decide_false.
Qed.

Lemma registerTunnel_installs (wsh : nat) (registration : Message) (t0 : Z) (e : Edge) :
  activeTunnel e = None ->
  activeTunnel (registerTunnel wsh registration t0 e).1
  = Some {| ws := wsh; port := declaredPort registration; registeredAt := t0 |}.
Proof.
  intros Hnone. unfold registerTunnel, bind, gets, modify, ws_on_close.
  by rewrite Hnone.
Qed.

(** A [register] frame that declares the port 0, and one that declares no
    port, install a tunnel whose reported port is 3000. *)
Lemma getStatus_port_defaults :
  msg_port (Frames.registerMessage (Some 0)) = Some 0
  /\ getStatus 61000 (registerTunnel 1 (Frames.registerMessage (Some 0)) 1000 Scenario.start).1
     = {| connected := true; status_port := Some 3000; uptime := Some 60000 |}
  /\ msg_port (Frames.registerMessage None) = None
  /\ getStatus 61000 (registerTunnel 1 (Frames.registerMessage None) 1000 Scenario.start).1
     = {| connected := true; status_port := Some 3000; uptime := Some 60000 |}.
Proof. repeat split; vm_compute; reflexivity. Qed.

(** C8, amended. [getStatus] returns the three fields [connected], [port]
    and [uptime]. In a state without a tunnel they are [false], [null] and
    [null]. In a state whose tunnel is the one that [registerTunnel] installed
    at time [t0] for the channel [wsh] and the frame [registration],
    [connected] tells whether [wsh] is open in that state, [uptime] is the
    time elapsed since [t0], and [port] is the port the frame declares, or
    3000 when it declares none or declares 0. *)
Theorem getStatus_reports_registration (now : Z) (e : Edge) :
  (activeTunnel e = None ->
   getStatus now e = {| connected := false; status_port := None; uptime := None |})
  /\ (forall (e0 : Edge) (wsh : nat) (registration : Message) (t0 : Z),
        activeTunnel e0 = None ->
        activeTunnel e = activeTunnel (registerTunnel wsh registration t0 e0).1 ->
        getStatus now e
        = {| connected := bool_decide (readyState (socket wsh e) = 1);
             status_port := Some match msg_port registration with
                                 | Some p => if p =? 0 then 3000 else p
                                 | None => 3000
                                 end;
             uptime := Some (now - t0) |}).
Proof.
  split.
  - intros Hnone. rewrite getStatus_unfold. by rewrite Hnone.
  - intros e0 wsh registration t0 Hnone Hsame.
    rewrite registerTunnel_installs in Hsame by exact Hnone.
    rewrite getStatus_unfold, Hsame. reflexivity.
Qed.

(** Before the registration, and one minute after it, while [req_1] is
    streaming. *)
Lemma getStatus_reports_registration_witness :
  getStatus 61000 Scenario.start
  = {| connected := false; status_port := None; uptime := None |}
  /\ getStatus 61000 Scenario.flushed
     = {| connected := true; status_port := Some 8080; uptime := Some 60000 |}.
Proof.
  split.
  - apply (getStatus_reports_registration 61000 Scenario.start). reflexivity.
  - assert (Hopen : bool_decide (readyState (socket 1 Scenario.flushed) = 1) = true)
      by (vm_compute; reflexivity).
    rewrite <- Hopen.
    apply (proj2 (getStatus_reports_registration 61000 Scenario.flushed)
             Scenario.start 1%nat (Frames.registerMessage (Some 8080)) 1000).
    + reflexivity.
    + vm_compute; reflexivity.
Defined.

(** X14. The registration that [getStatus] reports is the one [registerTunnel]
    installed: the port is [registration.port || 3000] and the clock starts
    at the time of the call. *)
Lemma getStatus_after_registerTunnel (wsh : nat) (registration : Message) (t0 now : Z) (e : Edge) :
  activeTunnel e = None ->
  getStatus now (registerTunnel wsh registration t0 e).1
  = {| connected := bool_decide (readyState (socket wsh e) = 1);
       status_port := Some (declaredPort registration);
       uptime := Some (now - t0) |}.
Proof.
  intros Hnone. rewrite getStatus_unfold.
  unfold registerTunnel, bind, gets, modify, ws_on_close. rewrite Hnone. simpl.
  unfold socket. simpl. rewrite lookup_total_insert_eq. reflexivity.
Qed.

(** ** The request body on the channel *)

Lemma chunkMessage_has_no_direction (id data : string) :
  msg_direction (Frames.chunkMessage id data) = None.
Proof. reflexivity. Qed.

Lemma endMessage_direction (id : string) :
  msg_direction (Frames.endMessage id) = Some "request".
Proof. reflexivity. Qed.

(** On an open tunnel, a fragment of the request body is sent as the frame
    [{ type: 'chunk', id, data }]. *)
Lemma onRequestData_sends `{Base64} (e : Edge) (requestId : string) (chunk : Buffer) (t : Tunnel) :
  activeTunnel e = Some t ->
  readyState (socket (ws t) e) = 1 ->
  sent (socket (ws t) (onRequestData requestId chunk e).1)
  = (sent (socket (ws t) e) ++ [Frames.chunkMessage requestId (to_base64 chunk)])%list.
Proof.
  intros Ht Hopen. unfold onRequestData, bind, gets. rewrite Ht, Hopen. simpl.
  unfold try_catch, ws_send. rewrite Hopen. simpl.
  unfold socket, set_socket. simpl. by rewrite lookup_total_insert_eq.
Qed.

(** The dispatcher of the client does nothing with a [chunk] frame whose
    [direction] is not [request]. *)
Lemma clientOnMessage_drops_undirected_chunk `{Base64} (c : Client) (m : Message) :
  msg_type m = "chunk" ->
  msg_direction m ≠ Some "request" ->
  clientOnMessage (Parsed m) c = (c, Normal tt).
Proof.
  intros Htype Hdir. unfold clientOnMessage, try_catch. rewrite Htype. simpl.
  by rewrite bool_decide_false.
Qed.

(** C1. The edge forwards a [POST] whose body arrives as the fragment [hi]:
    the fragment goes out as a [chunk] frame without a [direction] field
    (only the [end] frame has [direction = request]); the client, given the
    frames in order, writes nothing to the local request and ends it with an
    empty body. *)
Theorem request_body_chunk_is_dropped :
  let frames := sent (socket 1 Scenario.uploaded) in
  (fun m => (msg_type m, msg_id m, msg_data m, msg_direction m)) <$> frames
  = [ ("registered", None, None, None);
      ("request", Some "req_1", None, None);
      ("chunk", Some "req_1", Some "aGk=", None);
      ("end", Some "req_1", None, Some "request") ]
  /\ (fun r => (written r, ended r))
       <$> localRequests (deliver (H := StdBase64.codec) frames Scenario.newClient).1
     = [ ([], true) ].
Proof. split; vm_compute; reflexivity. Qed.

(** ** A second registration *)

Lemma registerTunnel_throws_when_registered (e : Edge) (t : Tunnel)
    (wsh : nat) (registration : Message) (now : Z) :
  activeTunnel e = Some t ->
  registerTunnel wsh registration now e
  = (e, Thrown (TypeError "this.activeTunnel.close is not a function")).
Proof. intros Ht. unfold registerTunnel, bind, gets. by rewrite Ht. Qed.

(** The ['close'] listener of a channel that is not the one of the active
    tunnel does nothing. *)
Lemma onTunnelClose_other (e : Edge) (t : Tunnel) (wsh : nat) :
  activeTunnel e = Some t ->
  ws t ≠ wsh ->
  onTunnelClose wsh e = (e, Normal tt).
Proof.
  intros Ht Hne. unfold onTunnelClose, bind, gets. rewrite Ht.
  by rewrite bool_decide_false.
Qed.

(** C2. A tunnel is registered on channel 1 and [req_1] is in flight; a
    second client registers on channel 2. [registerTunnel] throws at
    [this.activeTunnel.close()] and changes nothing: the first registration
    stays the active tunnel, its channel stays open, [req_1] stays in the
    table with its response untouched, and the second client is sent an
    [error] frame. *)
Theorem second_registration_is_refused :
  let register2 := Frames.registerMessage (Some 4000) in
  let e' := (serverOnRegister 2 register2 2000 Scenario.awaiting).1 in
  (registerTunnel 2 register2 2000 Scenario.awaiting).2
  = Thrown (TypeError "this.activeTunnel.close is not a function")
  /\ activeTunnel e' = Some {| ws := 1; port := 8080; registeredAt := 1000 |}
  /\ readyState (socket 1 e') = 1
  /\ pendingRequests e' = [ ("req_1", {| res := 7; responseStarted := false |}) ]
  /\ phase (response 7 e') = Fresh
  /\ json (response 7 e') = None
  /\ sent (socket 2 e')
     = [ Frames.errorMessage "this.activeTunnel.close is not a function" ].
Proof. repeat split; vm_compute; reflexivity. Qed.

(** ** The channel closes *)

(** While [req_1] awaits its head, the close of the channel completes the
    response with 503 and empties the table. *)
Example close_while_awaiting :
  let out := socketClosed 1 Scenario.awaiting in
  out.2 = Normal tt
  /\ phase (response 7 out.1) = Finished 503
  /\ json (response 7 out.1) = Some Bodies.tunnelDisconnected
  /\ pendingRequests out.1 = []
  /\ activeTunnel out.1 = None.
Proof. repeat split; vm_compute; reflexivity. Qed.

(** C6. The channel closes while [req_1] is streaming. When the head of the
    response is recorded but not yet out, the listener writes status 503
    and the JSON body over it; when a chunk has been written, [res.json]
    throws in the loop, the response stays open and the table keeps the
    record. *)
Theorem close_while_streaming :
  let early := socketClosed 1 Scenario.streaming in
  let late := socketClosed 1 Scenario.flushed in
  pendingRequests Scenario.streaming
  = [ ("req_1", {| res := 7; responseStarted := true |}) ]
  /\ phase (response 7 Scenario.streaming) = Fresh
  /\ phase (response 7 early.1) = Finished 503
  /\ json (response 7 early.1) = Some Bodies.tunnelDisconnected
  /\ phase (response 7 Scenario.flushed) = HeadersSent 200
  /\ late.2 = Thrown ERR_HTTP_HEADERS_SENT
  /\ phase (response 7 late.1) = HeadersSent 200
  /\ pendingRequests late.1 = [ ("req_1", {| res := 7; responseStarted := true |}) ].
Proof. repeat split; vm_compute; reflexivity. Qed.

(** ** Backoff *)

(** X23. The delay of an attempt: [reconnect] counts the attempt first, so the
    [n]-th attempt in a row waits [min(baseDelay * 2^n, maxDelay)] and at most
    three tenths more. *)
Lemma reconnect_delay (m : ReconnectManager) (num den : Z) :
  isReconnecting m = false ->
  maxAttempts m = None ->
  0 <= attempts m -> 0 <= baseDelay m -> 0 <= maxDelay m ->
  0 <= num < den ->
  exists delay m',
    Reconnect.reconnect num den m = (m', Normal (Scheduled (attempts m + 1) delay))
    /\ attempts m' = attempts m + 1
    /\ let base := Z.min (baseDelay m * 2 ^ (attempts m + 1)) (maxDelay m) in
       base <= delay /\ 10 * delay <= 13 * base.
Proof.
  intros Hidle Hmax Hn Hb Hc Hr.
  unfold Reconnect.reconnect, bind, gets, modify. rewrite Hidle. simpl.
  rewrite Hmax. simpl.
  eexists _, _. split; [reflexivity|]. simpl. split; [reflexivity|].
  unfold Reconnect.getDelay, Reconnect.backoff. simpl.
  set (base := Z.min (baseDelay m * 2 ^ (attempts m + 1)) (maxDelay m)).
  assert (0 <= base).
  { subst base. apply Z.min_glb; [|done]. apply Z.mul_nonneg_nonneg; [done|].
    apply Z.pow_nonneg. lia. }
  split.
  - apply Z.div_le_lower_bound; nia.
  - assert ((10 * den * base + num * 3 * base) / (10 * den) * (10 * den)
            <= 10 * den * base + num * 3 * base).
    { rewrite Z.mul_comm. apply Z.mul_div_le. lia. }
    nia.
Qed.

(** C3. A fresh controller whose attempts keep failing, with the jitter at
    zero: the first three attempts wait 2000, 4000 and 8000 ms. *)
Theorem first_delays_start_at_two_seconds :
  let first := Reconnect.reconnect 0 1 Reconnect.defaults in
  let second := Reconnect.timerFired false 0 1 first.1 in
  let third := Reconnect.timerFired false 0 1 second.1 in
  first.2 = Normal (Scheduled 1 2000)
  /\ second.2 = Normal (Some (Scheduled 2 4000))
  /\ third.2 = Normal (Some (Scheduled 3 8000)).
Proof. repeat split. Qed.

(** ** Inline request bodies at the client *)




(** ** The configuration file *)

Section ConfigFacts.
Context `{UrlParser}.
Implicit Types (file : option FileContent) (text : string).







End ConfigFacts.




(** * Further properties of the edge *)

Section MoreEdgeFacts.
Implicit Types (e : Edge) (h : nat) (r : Response).

Lemma set_response_twice h r r' e :
  set_response h r' (set_response h r e) = set_response h r' e.
Proof. unfold set_response. simpl. by rewrite insert_insert_eq. Qed.

Lemma status_json_fresh h code body e :
  Http.validStatus code = true ->
  phase (response h e) = Fresh ->
  status_json h code body e
  = (set_response h (Outcome.answered code body (response h e)) e, Normal tt).
Proof.
  intros Hvalid Hfresh. unfold status_json, bind, onRes, tryRes, modify. simpl.
  rewrite response_set_response_eq. unfold Res.json_. simpl. rewrite Hfresh, Hvalid.
  by rewrite set_response_twice.
Qed.

Lemma status_json_sent h code body e :
  phase (response h e) ≠ Fresh ->
  (status_json h code body e).2 = Thrown ERR_HTTP_HEADERS_SENT.
Proof.
  intros Hsent. unfold status_json, bind, onRes, tryRes, modify. simpl.
  rewrite response_set_response_eq. unfold Res.json_. simpl.
  by destruct (phase (response h e)).
Qed.

End MoreEdgeFacts.

(** X1. Without an open tunnel, [forwardRequest] completes an untouched
    response with 503 and the body [No active tunnel], and changes nothing
    else: no record, no listener, no frame. *)
Theorem forwardRequest_without_tunnel (e : Edge) (requestId : string)
    (req : Request) (resh : nat) :
  isActive e = false ->
  phase (response resh e) = Fresh ->
  forwardRequest requestId req resh e
  = (set_response resh (Outcome.answered 503 Bodies.noActiveTunnel (response resh e)) e,
     Normal tt).
Proof.
  intros Hidle Hfresh. unfold forwardRequest, bind, gets, headersSent.
  rewrite Hfresh, Hidle. simpl. rewrite Hfresh. simpl.
  by apply status_json_fresh.
Qed.

Lemma forwardRequest_without_tunnel_witness :
  let out := forwardRequest "req_9" Scenario.post 8 Scenario.start in
  phase (response 8 out.1) = Finished 503
  /\ json (response 8 out.1) = Some Bodies.noActiveTunnel
  /\ pendingRequests out.1 = []
  /\ sent (socket 1 out.1) = [].
Proof.
  assert (Hidle : isActive Scenario.start = false) by reflexivity.
  assert (Hfresh : phase (response 8 Scenario.start) = Fresh) by (vm_compute; reflexivity).
  cbv zeta.
  rewrite (forwardRequest_without_tunnel Scenario.start "req_9" Scenario.post 8 Hidle Hfresh).
  simpl. rewrite response_set_response_eq. repeat split.
Defined.

(** A handler does nothing with a frame that carries another id. *)
Lemma responseHandler_other_id `{Base64} (e : Edge) (requestId : string) (message : Message) :
  msg_id message ≠ Some requestId ->
  responseHandler requestId (Parsed message) e = (e, Normal tt).
Proof.
  intros Hne. unfold responseHandler, try_catch. by rewrite bool_decide_false.
Qed.

Lemma responseHandler_other_id_witness :
  responseHandler (H := StdBase64.codec) "req_1"
    (Parsed (Frames.chunkMessage "req_2" "aGk=")) Scenario.awaiting
  = (Scenario.awaiting, Normal tt).
Proof.
  apply (responseHandler_other_id (H := StdBase64.codec)). discriminate.
Defined.

(** X6. A handler whose record has left the table does nothing, whatever
    arrives: a frame for its id, a frame for another id, or text that does
    not parse. *)
Theorem responseHandler_record_gone `{Base64} (e : Edge) (requestId : string) (data : Wire) :
  JsMap.get requestId (pendingRequests e) = None ->
  responseHandler requestId data e = (e, Normal tt).
Proof.
  intros Hgone. unfold responseHandler, try_catch, bind, pending_get, gets.
  destruct data as [|message]; simpl.
  - by rewrite Hgone.
  - destruct (bool_decide (msg_id message = Some requestId)); simpl; [|done].
    by rewrite Hgone.
Qed.

Lemma responseHandler_record_gone_witness :
  responseHandler (H := StdBase64.codec) "req_1"
    (Parsed (Frames.chunkMessage "req_1" "aGk=")) Scenario.registered
  = (Scenario.registered, Normal tt).
Proof.
  apply (responseHandler_record_gone (H := StdBase64.codec)). reflexivity.
Defined.






(** ** The head of a response *)

Section HeaderLoop.





End HeaderLoop.



(** ** The close of the active channel *)

Section CloseLoop.


End CloseLoop.



(** X8. Once the channel of the active tunnel closes, the manager has no
    active tunnel, whether or not the ['close'] listener gets through its
    loop. *)
Theorem socketClosed_deactivates (e : Edge) (t : Tunnel) :
  activeTunnel e = Some t ->
  closeListener (socket (ws t) e) = true ->
  let out := socketClosed (ws t) e in
  activeTunnel out.1 = None /\ isActive out.1 = false.
Proof.
  intros Ht Hlisten out.
  assert (Hnone : activeTunnel out.1 = None).
  { subst out. unfold socketClosed, bind, gets, modify. simpl.
    unfold set_readyState. rewrite socket_set_socket_eq. simpl. rewrite Hlisten. simpl.
    unfold onTunnelClose, bind, gets, modify. simpl. rewrite Ht.
    rewrite bool_decide_true by done. simpl.
    match goal with
    | |- context [for_each ?l ?f ?s] =>
        assert (Hloop : activeTunnel (for_each l f s).1 = None);
        [|destruct (for_each l f s) as [e' [[]|err]]; simpl in *; exact Hloop]
    end.
    generalize (pendingRequests e) at 1. intros entries.
    set (s0 := set_activeTunnel None _).
    assert (Hs0 : activeTunnel s0 = None) by reflexivity.
    clearbody s0. revert s0 Hs0.
    induction entries as [|entry rest IH]; intros s0 Hs0; simpl; [done|].
    unfold bind.
    destruct (status_json (res entry.2) 503 Bodies.tunnelDisconnected s0)
      as [s1 [[]|err]] eqn:Hstep.
    - apply IH. unfold status_json, bind, onRes, tryRes, modify in Hstep. simpl in Hstep.
      destruct (Res.json_ _ _); injection Hstep as <-; done.
    - simpl. unfold status_json, bind, onRes, tryRes, modify in Hstep. simpl in Hstep.
      destruct (Res.json_ _ _); injection Hstep as <-; done. }
  split; [exact Hnone|]. unfold isActive. by rewrite Hnone.
Qed.

Lemma socketClosed_deactivates_witness :
  activeTunnel (socketClosed 1 Scenario.flushed).1 = None
  /\ isActive (socketClosed 1 Scenario.flushed).1 = false.
Proof.
  apply (socketClosed_deactivates Scenario.flushed
           {| ws := 1; port := 8080; registeredAt := 1000 |});
    vm_compute; reflexivity.
Defined.

(** ** Handlers that run after the tunnel is gone *)



(** ** The request body on its way out *)

(** X11. Without an open tunnel the events of a request body send nothing
    and change nothing. *)
Theorem body_events_without_tunnel `{Base64} (e : Edge) (requestId : string)
    (fragments : list Buffer) :
  isActive e = false ->
  pumpBody requestId fragments e = (e, Normal tt).
Proof.
  intros Hidle.
  assert (Hdata : forall chunk, onRequestData requestId chunk e = (e, Normal tt)).
  { intros chunk. unfold onRequestData, bind, gets. unfold isActive in Hidle.
    destruct (activeTunnel e) as [t|]; [|done]. by rewrite Hidle. }
  assert (Hend : onRequestEnd requestId e = (e, Normal tt)).
  { unfold onRequestEnd, bind, gets. unfold isActive in Hidle.
    destruct (activeTunnel e) as [t|]; [|done]. by rewrite Hidle. }
  unfold pumpBody, bind.
  assert (Hloop : for_each fragments (onRequestData requestId) e = (e, Normal tt)).
  { induction fragments as [|chunk rest IH]; [done|].
    simpl. unfold bind. by rewrite Hdata. }
  by rewrite Hloop.
Qed.

Lemma body_events_without_tunnel_witness :
  pumpBody (H := StdBase64.codec) "req_1" [ [x68]; [x69] ] Scenario.start
  = (Scenario.start, Normal tt).
Proof.
  apply (body_events_without_tunnel (H := StdBase64.codec)). reflexivity.
Defined.

Section PumpFacts.
Context `{Base64}.

Lemma onRequestData_step (e : Edge) (requestId : string) (chunk : Buffer) (t : Tunnel) :
  activeTunnel e = Some t ->
  readyState (socket (ws t) e) = 1 ->
  exists e',
    onRequestData requestId chunk e = (e', Normal tt)
    /\ activeTunnel e' = Some t
    /\ readyState (socket (ws t) e') = 1
    /\ pendingRequests e' = pendingRequests e
    /\ responses e' = responses e
    /\ sent (socket (ws t) e')
       = (sent (socket (ws t) e) ++ [Frames.chunkMessage requestId (to_base64 chunk)])%list.
Proof.
  intros Ht Hopen. unfold onRequestData, bind, gets. rewrite Ht, Hopen. simpl.
  unfold try_catch, ws_send. rewrite Hopen. simpl.
  eexists. split; [reflexivity|]. simpl.
  rewrite socket_set_socket_eq. simpl. by repeat split.
Qed.

Lemma onRequestEnd_step (e : Edge) (requestId : string) (t : Tunnel) :
  activeTunnel e = Some t ->
  readyState (socket (ws t) e) = 1 ->
  exists e',
    onRequestEnd requestId e = (e', Normal tt)
    /\ pendingRequests e' = pendingRequests e
    /\ responses e' = responses e
    /\ sent (socket (ws t) e')
       = (sent (socket (ws t) e) ++ [Frames.endMessage requestId])%list.
Proof.
  intros Ht Hopen. unfold onRequestEnd, bind, gets. rewrite Ht, Hopen. simpl.
  unfold try_catch, ws_send. rewrite Hopen. simpl.
  eexists. split; [reflexivity|]. simpl.
  rewrite socket_set_socket_eq. simpl. by repeat split.
Qed.

End PumpFacts.

(** X12. On an open tunnel the events of a request body put on the channel,
    after what was sent before and in the order of the fragments, one
    [chunk] frame per fragment with the fragment in base64, then the [end]
    frame with [direction = request]; the table and the public responses
    stay as they are. *)
Theorem body_events_send_frames `{Base64} (requestId : string) (fragments : list Buffer) :
  forall (e : Edge) (t : Tunnel),
    activeTunnel e = Some t ->
    readyState (socket (ws t) e) = 1 ->
    let out := pumpBody requestId fragments e in
    out.2 = Normal tt
    /\ sent (socket (ws t) out.1)
       = (sent (socket (ws t) e)
          ++ ((fun chunk => Frames.chunkMessage requestId (to_base64 chunk)) <$> fragments)
          ++ [Frames.endMessage requestId])%list
    /\ pendingRequests out.1 = pendingRequests e
    /\ responses out.1 = responses e.
Proof.
  unfold pumpBody, bind.
  induction fragments as [|chunk rest IH]; intros e t Ht Hopen; simpl.
  - destruct (onRequestEnd_step e requestId t Ht Hopen) as (e' & Hrun & Hp & Hr & Hs).
    rewrite Hrun. simpl. by repeat split.
  - unfold bind.
    destruct (onRequestData_step e requestId chunk t Ht Hopen)
      as (e1 & Hrun & Ht1 & Hopen1 & Hp1 & Hr1 & Hs1).
    rewrite Hrun. specialize (IH e1 t Ht1 Hopen1). simpl in IH.
    destruct (for_each rest (onRequestData requestId) e1) as [e2 [[]|err]];
      simpl in *.
    + destruct IH as (Hnormal & Hsent & Hp & Hr).
      split; [exact Hnormal|]. rewrite Hsent, Hs1, Hp, Hr, Hp1, Hr1.
      by rewrite <- app_assoc.
    + by destruct IH.
Qed.

Lemma body_events_send_frames_witness :
  let out := pumpBody (H := StdBase64.codec) "req_1" [ [x68]; [x69] ] Scenario.awaiting in
  out.2 = Normal tt
  /\ (fun m => (msg_type m, msg_data m, msg_direction m))
       <$> drop 2 (sent (socket 1 out.1))
     = [ ("chunk", Some "aA==", None); ("chunk", Some "aQ==", None);
         ("end", None, Some "request") ].
Proof.
  assert (Ht : activeTunnel Scenario.awaiting
               = Some {| ws := 1; port := 8080; registeredAt := 1000 |})
    by (vm_compute; reflexivity).
  assert (Hopen : readyState (socket 1 Scenario.awaiting) = 1)
    by (vm_compute; reflexivity).
  destruct (body_events_send_frames (H := StdBase64.codec) "req_1" [ [x68]; [x69] ]
              Scenario.awaiting _ Ht Hopen) as (Hnormal & Hsent & _).
  cbv zeta. cbn [ws] in Hsent. rewrite Hsent.
  split; [exact Hnormal|]. vm_compute. reflexivity.
Defined.

(** ** Registration *)

(** X13. The first [register] frame on an open channel installs the
    tunnel, with the port of the frame (3000 when the frame has none, or
    zero) and the time of the call, adds the ['close'] listener to the
    channel and answers with a [registered] frame that echoes the port. *)
Theorem first_registration_is_acknowledged (e : Edge) (wsh : nat)
    (registration : Message) (now : Z) :
  activeTunnel e = None ->
  readyState (socket wsh e) = 1 ->
  let out := serverOnRegister wsh registration now e in
  out.2 = Normal tt
  /\ activeTunnel out.1
     = Some {| ws := wsh; port := declaredPort registration; registeredAt := now |}
  /\ closeListener (socket wsh out.1) = true
  /\ sent (socket wsh out.1)
     = (sent (socket wsh e) ++ [Frames.registeredMessage (declaredPort registration)])%list
  /\ pendingRequests out.1 = pendingRequests e
  /\ isActive out.1 = true.
Proof.
  intros Hnone Hopen out. subst out.
  assert (Hreg : registerTunnel wsh registration now e
    = (set_socket wsh
         {| readyState := readyState (socket wsh e); sent := sent (socket wsh e);
            messageListeners := messageListeners (socket wsh e);
            closeListener := true |}
         (set_activeTunnel
            (Some {| ws := wsh; port := declaredPort registration; registeredAt := now |})
            e),
       Normal {| ws := wsh; port := declaredPort registration; registeredAt := now |})).
  { unfold registerTunnel, bind, gets, modify, ws_on_close. cbv beta.
    by rewrite Hnone. }
  unfold serverOnRegister, try_catch, bind. rewrite Hreg. cbv beta iota.
  unfold ws_send. rewrite socket_set_socket_eq. cbn [readyState port].
  rewrite Hopen. simpl. unfold isActive. simpl.
  rewrite !socket_set_socket_eq. simpl. by repeat split.
Qed.

(** A client registers without a port. *)
Lemma first_registration_is_acknowledged_witness :
  let out := serverOnRegister 2 (Frames.registerMessage None) 5000 Scenario.start in
  activeTunnel out.1 = Some {| ws := 2; port := 3000; registeredAt := 5000 |}
  /\ sent (socket 2 out.1) = [ Frames.registeredMessage 3000 ]
  /\ isActive out.1 = true.
Proof.
  assert (Hopen : readyState (socket 2 Scenario.start) = 1) by (vm_compute; reflexivity).
  destruct (first_registration_is_acknowledged Scenario.start 2
              (Frames.registerMessage None) 5000 eq_refl Hopen)
    as (_ & Ht & _ & Hsent & _ & Hactive).
  cbv zeta. rewrite Ht, Hsent. split; [reflexivity|]. split; [|exact Hactive].
  vm_compute. reflexivity.
Defined.

(** The status after a registration on channel 2 without a port, read 250 ms
    later. *)
Lemma getStatus_after_registerTunnel_witness :
  getStatus 5250 (registerTunnel 2 (Frames.registerMessage None) 5000 Scenario.start).1
  = {| connected := true; status_port := Some 3000; uptime := Some 250 |}.
Proof.
  rewrite (getStatus_after_registerTunnel 2 (Frames.registerMessage None) 5000 5250
             Scenario.start eq_refl).
  vm_compute. reflexivity.
Defined.

(** ** What goes out with a request *)

(** X2. On an open tunnel, [forwardRequest] with an untouched response
    sends one [request] frame, with the id, the method, the url and
    [hasBody] of the request, whose headers are those of the request without
    the hop-by-hop ones; the record is in the table, not started. *)
Theorem forwardRequest_sends_sanitized_request (e : Edge) (t : Tunnel)
    (requestId : string) (req : Request) (resh : nat) :
  activeTunnel e = Some t ->
  readyState (socket (ws t) e) = 1 ->
  phase (response resh e) = Fresh ->
  let out := forwardRequest requestId req resh e in
  exists frame,
    sent (socket (ws t) out.1) = (sent (socket (ws t) e) ++ [frame])%list
    /\ msg_type frame = "request"
    /\ msg_id frame = Some requestId
    /\ msg_method frame = Some (method req)
    /\ msg_url frame = Some (url req)
    /\ msg_hasBody frame = hasBody req
    /\ (forall key, default ∅ (msg_headers frame) !! key
                    = if is_hop key then None else headers req !! key)
    /\ JsMap.get requestId (pendingRequests out.1)
       = Some {| res := resh; responseStarted := false |}.
Proof.
  intros Ht Hopen Hfresh out.
  destruct (forwardRequest_awaits e t requestId req resh Ht Hopen Hfresh)
    as (_ & Hget & _ & Hsent).
  eexists. split; [exact Hsent|]. simpl. repeat split; try done.
  intros key. apply sanitizeHeaders_lookup.
Qed.

Lemma forwardRequest_sends_sanitized_request_witness :
  exists frame,
    sent (socket 1 (forwardRequest "req_1" Scenario.post 7 Scenario.registered).1)
    = (sent (socket 1 Scenario.registered) ++ [frame])%list
    /\ msg_hasBody frame = true
    /\ default ∅ (msg_headers frame) !! "connection" = None
    /\ default ∅ (msg_headers frame) !! "content-length" = Some "2".
Proof.
  assert (Ht : activeTunnel Scenario.registered
               = Some {| ws := 1; port := 8080; registeredAt := 1000 |})
    by (vm_compute; reflexivity).
  assert (Hopen : readyState (socket 1 Scenario.registered) = 1)
    by (vm_compute; reflexivity).
  assert (Hfresh : phase (response 7 Scenario.registered) = Fresh)
    by (vm_compute; reflexivity).
  destruct (forwardRequest_sends_sanitized_request Scenario.registered _ "req_1"
              Scenario.post 7 Ht Hopen Hfresh)
    as (frame & Hsent & _ & _ & _ & _ & Hbody & Hheaders & _).
  exists frame. split; [exact Hsent|]. split; [by rewrite Hbody|].
  split; rewrite Hheaders; vm_compute; reflexivity.
Defined.

(** X15. Sanitizing is idempotent, and the sanitized headers are among the
    headers given: nothing is added or changed. *)
Theorem sanitizeHeaders_idempotent_subset (headers : gmap string string) :
  sanitizeHeaders (sanitizeHeaders headers) = sanitizeHeaders headers
  /\ sanitizeHeaders headers ⊆ headers.
Proof.
  split.
  - apply map_eq. intros key. rewrite !sanitizeHeaders_lookup.
    by destruct (is_hop key).
  - rewrite sanitizeHeaders_filter. apply map_filter_subseteq.
Qed.

(** * Further properties of the client *)

Section ClientFacts.
Context `{Base64}.
Implicit Types (c : Client) (frame : Message).






End ClientFacts.





(** X18. The client is left as it is by text that does not parse and by
    every frame, other than a [request], whose id has no entry in the
    table. *)
Theorem client_ignores_unknown `{Base64} (c : Client) (data : Wire) :
  (forall frame, data = Parsed frame ->
     msg_type frame ≠ "request"
     /\ JsMap.get (msg_id frame) (clientPending c) = None) ->
  clientOnMessage data c = (c, Normal tt).
Proof.
  intros Hunknown. unfold clientOnMessage, try_catch.
  destruct data as [|frame]; [reflexivity|].
  destruct (Hunknown frame eq_refl) as [Htype Hgone].
  destruct (bool_decide (msg_type frame = "registered")); [reflexivity|].
  rewrite (bool_decide_false _ Htype).
  destruct (bool_decide (msg_type frame = "chunk")
            && bool_decide (msg_direction frame = Some "request")).
  - unfold handleRequestChunk, bind, gets. simpl. by rewrite Hgone.
  - destruct (bool_decide (msg_type frame = "end")
              && bool_decide (msg_direction frame = Some "request")); [|reflexivity].
    unfold handleRequestEnd, bind, gets. simpl. by rewrite Hgone.
Qed.

Lemma client_ignores_unknown_witness :
  clientOnMessage (H := StdBase64.codec)
    (Parsed (ClientFrames.requestChunk (Some "req_5") "aGk=")) Scenario.newClient
  = (Scenario.newClient, Normal tt).
Proof.
  apply (client_ignores_unknown (H := StdBase64.codec)).
  intros frame [= <-]. split; [discriminate|reflexivity].
Defined.

(** ** The address the client connects to *)

Lemma startsWith_app (p rest : string) : Js.startsWith (p ++ rest) p = true.
Proof.
  induction p as [|a p IH].
  - by destruct rest.
  - change (String a p ++ rest) with (String a (p ++ rest)). simpl.
    by rewrite bool_decide_true, IH.
Qed.

Lemma connectUrl_http (rest : string) :
  Connect.connectUrl ("http://" ++ rest) = "wss://" ++ rest ++ "/connect".
Proof.
  unfold Connect.connectUrl, Connect.wsUrl, Connect.replaceHttpOrHttps.
  assert (Hs : Js.startsWith ("http://" ++ rest) "https://" = false) by reflexivity.
  rewrite Hs, startsWith_app.
  change (Connect.slice 7 ("http://" ++ rest)) with rest.
  unfold Connect.replaceHttp.
  assert (Hw : Js.startsWith ("wss://" ++ rest) "http://" = false) by reflexivity.
  by rewrite Hw.
Qed.

Lemma connectUrl_https (rest : string) :
  Connect.connectUrl ("https://" ++ rest) = "wss://" ++ rest ++ "/connect".
Proof.
  unfold Connect.connectUrl, Connect.wsUrl, Connect.replaceHttpOrHttps.
  rewrite startsWith_app.
  change (Connect.slice 8 ("https://" ++ rest)) with rest.
  unfold Connect.replaceHttp.
  assert (Hw : Js.startsWith ("wss://" ++ rest) "http://" = false) by reflexivity.
  by rewrite Hw.
Qed.

Lemma startsWith_split (p : string) :
  forall s, Js.startsWith s p = true -> s = p ++ Connect.slice (String.length p) s.
Proof.
  induction p as [|a p IH]; intros s Hs; [reflexivity|].
  destruct s as [|b s]; [discriminate|]. simpl in Hs.
  apply andb_true_iff in Hs as [Hab Hrest].
  apply bool_decide_eq_true in Hab as ->.
  change (String b s = String b (p ++ Connect.slice (String.length p) s)).
  f_equal. by apply IH.
Qed.

(** X19. A server url that begins with [http://] and one that begins with
    [https://] both give a [wss://] address, the rest of the url followed by
    [/connect]: the [ws://] replacement never applies. *)
Theorem connectUrl_is_wss (rest : string) :
  Connect.connectUrl ("http://" ++ rest) = "wss://" ++ rest ++ "/connect"
  /\ Connect.connectUrl ("https://" ++ rest) = "wss://" ++ rest ++ "/connect".
Proof. split; [apply connectUrl_http | apply connectUrl_https]. Qed.

(** * Further properties of the reconnection controller *)

Section ReconnectFacts.
Implicit Types (m : ReconnectManager).

Lemma reconnect_idle_unbounded m (num den : Z) :
  isReconnecting m = false ->
  maxAttempts m = None ->
  Reconnect.reconnect num den m
  = (Reconnect.update (attempts m + 1)
       (Some (Reconnect.getDelay num den
                (Reconnect.update (attempts m + 1) (reconnectTimeout m) true m)))
       true m,
     Normal (Scheduled (attempts m + 1)
               (Reconnect.getDelay num den
                  (Reconnect.update (attempts m + 1) (reconnectTimeout m) true m)))).
Proof.
  intros Hidle Hmax. unfold Reconnect.reconnect, bind, gets, modify.
  rewrite Hidle. simpl. by rewrite Hmax.
Qed.

End ReconnectFacts.

(** X20. While a reconnection is under way, a further call of [reconnect]
    returns at once: no attempt is counted and no timer is set. *)
Theorem reconnect_is_not_reentrant (m : ReconnectManager) (num den num' den' : Z) :
  isReconnecting m = false ->
  maxAttempts m = None ->
  let first := Reconnect.reconnect num den m in
  attempts first.1 = attempts m + 1
  /\ Reconnect.reconnect num' den' first.1 = (first.1, Normal AlreadyReconnecting).
Proof.
  intros Hidle Hmax first. subst first.
  rewrite reconnect_idle_unbounded by done. simpl. split; reflexivity.
Qed.

Lemma reconnect_is_not_reentrant_witness :
  let first := Reconnect.reconnect 1 2 Reconnect.defaults in
  attempts first.1 = 1
  /\ Reconnect.reconnect 0 1 first.1 = (first.1, Normal AlreadyReconnecting).
Proof.
  exact (reconnect_is_not_reentrant Reconnect.defaults 1 2 0 1 eq_refl eq_refl).
Defined.

(** X21. With a limit on the attempts, [reconnect] on an idle controller
    sets a timer as long as the attempts counted so far are below the
    limit; from the limit on it counts the attempt, throws
    [Max reconnection attempts reached] and leaves the controller idle. *)
Theorem reconnect_gives_up_at_limit (m : ReconnectManager) (most num den : Z) :
  isReconnecting m = false ->
  maxAttempts m = Some most ->
  let out := Reconnect.reconnect num den m in
  (attempts m < most ->
     exists delay, out.2 = Normal (Scheduled (attempts m + 1) delay)
                   /\ isReconnecting out.1 = true
                   /\ reconnectTimeout out.1 = Some delay)
  /\ (most <= attempts m ->
        out.2 = Thrown (Error "Max reconnection attempts reached")
        /\ isReconnecting out.1 = false
        /\ attempts out.1 = attempts m + 1
        /\ reconnectTimeout out.1 = reconnectTimeout m).
Proof.
  intros Hidle Hmax out. subst out.
  unfold Reconnect.reconnect, bind, gets, modify. rewrite Hidle. simpl.
  rewrite Hmax. split; intros Hlimit.
  - destruct (Z.ltb_spec most (attempts m + 1)); [lia|]. simpl. by eexists.
  - destruct (Z.ltb_spec most (attempts m + 1)); [|lia]. by simpl.
Qed.

Lemma reconnect_gives_up_at_limit_witness :
  let limited :=
    Reconnect.new {| opt_maxAttempts := Some 2; opt_baseDelay := None;
                     opt_maxDelay := None |} in
  (exists delay, (Reconnect.reconnect 0 1 limited).2 = Normal (Scheduled 1 delay))
  /\ (Reconnect.reconnect 0 1 (Reconnect.update 2 None false limited)).2
     = Thrown (Error "Max reconnection attempts reached").
Proof.
  intros limited. split.
  - destruct (reconnect_gives_up_at_limit limited 2 0 1 eq_refl eq_refl) as [Hbelow _].
    destruct Hbelow as (delay & Hstep & _); [simpl; lia|]. by exists delay.
  - destruct (reconnect_gives_up_at_limit (Reconnect.update 2 None false limited)
                2 0 1 eq_refl eq_refl) as [_ Hover].
    destruct Hover as (Hthrown & _); [simpl; lia|]. exact Hthrown.
Defined.

(** X22. The delay before the jitter never exceeds [maxDelay] and, for a
    base delay that is not negative, does not decrease as the attempts
    grow. *)
Theorem backoff_monotone_capped (m : ReconnectManager) (n n' : Z) :
  0 <= baseDelay m ->
  0 <= n <= n' ->
  let at_attempt k :=
    Reconnect.backoff (Reconnect.update k (reconnectTimeout m) (isReconnecting m) m) in
  at_attempt n <= at_attempt n' /\ at_attempt n' <= maxDelay m.
Proof.
  intros Hbase Hn at_attempt. subst at_attempt. unfold Reconnect.backoff. simpl.
  split; [|apply Z.le_min_r].
  apply Z.min_le_compat_r. apply Z.mul_le_mono_nonneg_l; [done|].
  apply Z.pow_le_mono_r; lia.
Qed.

Lemma backoff_monotone_capped_witness :
  let at_attempt k :=
    Reconnect.backoff (Reconnect.update k None false Reconnect.defaults) in
  at_attempt 5 <= at_attempt 6 /\ at_attempt 6 <= 60000.
Proof.
  apply (backoff_monotone_capped Reconnect.defaults 5 6); simpl; lia.
Defined.

(** The third failed attempt in a row of the default controller, with the
    jitter at one half. *)
Lemma reconnect_delay_witness :
  exists delay m',
    Reconnect.reconnect 1 2 (Reconnect.update 2 None false Reconnect.defaults)
    = (m', Normal (Scheduled 3 delay))
    /\ attempts m' = 3
    /\ 8000 <= delay /\ 10 * delay <= 13 * 8000.
Proof.
  destruct (reconnect_delay (Reconnect.update 2 None false Reconnect.defaults) 1 2)
    as (delay & m' & Hrun & Hattempts & Hlow & Hhigh);
    [reflexivity | reflexivity | simpl; lia | simpl; lia | simpl; lia | lia |].
  exists delay, m'. simpl in Hlow, Hhigh. repeat split; assumption.
Defined.

(** X24. After a successful connection, after [reset] and after [cancel]
    the controller is idle with no attempt counted, so that (without a limit
    on the attempts) the next [reconnect] is attempt 1 again. *)
Theorem backoff_starts_over (m : ReconnectManager) (num den : Z) :
  maxAttempts m = None ->
  let connected := (Reconnect.timerFired true num den m).1 in
  (attempts connected = 0 /\ isReconnecting connected = false
   /\ exists delay, (Reconnect.reconnect num den connected).2 = Normal (Scheduled 1 delay))
  /\ (attempts (Reconnect.reset m) = 0 /\ isReconnecting (Reconnect.reset m) = false
      /\ reconnectTimeout (Reconnect.reset m) = None
      /\ exists delay,
           (Reconnect.reconnect num den (Reconnect.reset m)).2 = Normal (Scheduled 1 delay))
  /\ (attempts (Reconnect.cancel m) = 0 /\ isReconnecting (Reconnect.cancel m) = false
      /\ reconnectTimeout (Reconnect.cancel m) = None).
Proof.
  intros Hmax connected. subst connected. simpl.
  repeat split.
  - rewrite reconnect_idle_unbounded by done. by eexists.
  - rewrite reconnect_idle_unbounded by done. by eexists.
Qed.

Lemma backoff_starts_over_witness :
  let failing := (Reconnect.timerFired false 0 1
                    (Reconnect.reconnect 0 1 Reconnect.defaults).1).1 in
  attempts failing = 2
  /\ attempts (Reconnect.timerFired true 0 1 failing).1 = 0
  /\ exists delay,
       (Reconnect.reconnect 0 1 (Reconnect.timerFired true 0 1 failing).1).2
       = Normal (Scheduled 1 delay).
Proof.
  intros failing. split; [reflexivity|].
  destruct (backoff_starts_over failing 0 1 eq_refl) as [(Hzero & _ & Hnext) _].
  split; assumption.
Defined.

(** * Further properties of the configuration *)

(** X25. A domain that fails the validation of [init] (it is not a
    string, or is the empty string; or, trimmed and without its final slash,
    it does not begin with [http://] or [https://], or is not a URL): [init]
    throws the error of the first check that fails, before it touches the
    file system, so that the configuration file is as it was. *)
Theorem initConfig_failure_keeps_file `{UrlParser} (domain : JsValue)
    (now1 now2 : string) (file : option FileContent) :
  (forall text, domain = JString text ->
     text = ""
     \/ (Js.startsWith (normalize text) "http://" = false
         /\ Js.startsWith (normalize text) "https://" = false)
     \/ url_parses (normalize text) = false) ->
  initConfig domain now1 now2 file
  = (file,
     Thrown (Error match domain with
                   | JString text =>
                       if bool_decide (text = "") then "Domain is required"
                       else if Js.startsWith (normalize text) "http://"
                               || Js.startsWith (normalize text) "https://"
                       then "Invalid domain URL format"
                       else "Domain must start with http:// or https://"
                   | _ => "Domain is required"
                   end)).
Proof.
  intros Hfails. unfold initConfig, throw.
  destruct domain as [| |b|n|text]; try reflexivity.
  case_bool_decide as Hempty; [reflexivity|].
  destruct (Js.startsWith (normalize text) "http://") eqn:Hhttp;
    destruct (Js.startsWith (normalize text) "https://") eqn:Hhttps; simpl;
    try reflexivity;
    destruct (Hfails text eq_refl) as [Hnone|[[Hh Hs]|Hurl]];
    try done; try congruence; by rewrite Hurl.
Qed.

(** [init ftp://example.com] with a configuration on file. *)
Lemma initConfig_failure_keeps_file_witness :
  let existing :=
    Some (JsonObject {| domain := JString "https://a.example";
                        createdAt := JString "2024-01-01T00:00:00.000Z";
                        updatedAt := JString "2024-01-01T00:00:00.000Z" |}) in
  initConfig (H := SchemeHost.parser) (JString "ftp://example.com")
    "2024-02-01T00:00:00.000Z" "2024-02-01T00:00:00.000Z" existing
  = (existing, Thrown (Error "Domain must start with http:// or https://")).
Proof.
  intros existing.
  apply (initConfig_failure_keeps_file (H := SchemeHost.parser)
           (JString "ftp://example.com")).
  intros text [= <-]. right. left. split; reflexivity.
Defined.

(** X26. The normalization removes one trailing slash, not more: a string
    that ends in a slash loses that slash and nothing else, and a string
    that ends in another character is unchanged. *)
Theorem stripTrailingSlash_last (s : string) (c : ascii) :
  Js.stripTrailingSlash (s ++ String c "")
  = if bool_decide (c = "/"%char) then s else s ++ String c "".
Proof.
  induction s as [|a s IH].
  - change ("" ++ String c "") with (String c ""). simpl.
    by destruct (bool_decide (c = "/"%char)).
  - change (String a s ++ String c "") with (String a (s ++ String c "")).
    assert (Hne : exists b r, s ++ String c "" = String b r).
    { destruct s as [|b r]; [by exists c, ""|].
      exists b, (r ++ String c ""). reflexivity. }
    destruct Hne as (b & r & Hne).
    simpl. rewrite Hne. rewrite <- Hne, IH.
    destruct (bool_decide (c = "/"%char)); [reflexivity|].
    reflexivity.
Qed.

(** X27. A domain that [init] accepted gives a [wss://] address to connect
    to, also when it begins with [http://]. *)
Theorem configured_domain_connects_over_wss `{UrlParser} (text now1 now2 : string)
    (file file' : option FileContent) (config : ConfigObject) :
  initConfig (JString text) now1 now2 file = (file', Normal config) ->
  exists d rest,
    domain config = JString d
    /\ Connect.connectUrl d = "wss://" ++ rest ++ "/connect".
Proof.
  unfold initConfig. case_bool_decide; [discriminate|].
  destruct (Js.startsWith (normalize text) "http://") eqn:Hhttp; simpl.
  - destruct (negb (url_parses _)); [discriminate|].
    unfold bind, gets, modify, ret. simpl. intros [= _ <-]. simpl.
    exists (normalize text), (Connect.slice 7 (normalize text)). split; [done|].
    rewrite (startsWith_split "http://" (normalize text) Hhttp) at 1.
    apply connectUrl_http.
  - destruct (Js.startsWith (normalize text) "https://") eqn:Hhttps; simpl;
      [|discriminate].
    destruct (negb (url_parses _)); [discriminate|].
    unfold bind, gets, modify, ret. simpl. intros [= _ <-]. simpl.
    exists (normalize text), (Connect.slice 8 (normalize text)). split; [done|].
    rewrite (startsWith_split "https://" (normalize text) Hhttps) at 1.
    apply connectUrl_https.
Qed.

Lemma configured_domain_connects_over_wss_witness :
  exists d rest,
    d = "http://localhost:3001"
    /\ Connect.connectUrl d = "wss://" ++ rest ++ "/connect".
Proof.
  destruct (initConfig (H := SchemeHost.parser) (JString "http://localhost:3001/")
              "2024-01-01T00:00:00.000Z" "2024-01-01T00:00:00.000Z" None)
    as [file' [config|err]] eqn:Hrun; [|discriminate Hrun].
  destruct (configured_domain_connects_over_wss (H := SchemeHost.parser) _ _ _ _ _ _ Hrun)
    as (d & rest & Hd & Hurl).
  injection Hrun as _ <-. simpl in Hd. injection Hd as <-.
  by exists "http://localhost:3001", rest.
Defined.

(** * The uptime shown *)

(** X28. An uptime that is zero, negative or not a number is shown as
    [N/A]; an uptime under a minute is shown as its whole seconds, [0s] for
    less than a second. *)
Theorem formatUptime_short (ms : Z) :
  StatusDisplay.formatUptime None = "N/A"
  /\ (ms <= 0 -> StatusDisplay.formatUptime (Some ms) = "N/A")
  /\ (0 < ms < 60000 ->
        StatusDisplay.formatUptime (Some ms) = pretty (ms / 1000) ++ "s").
Proof.
  split; [reflexivity|]. split; intros Hms; unfold StatusDisplay.formatUptime.
  - destruct (Z.eqb_spec ms 0); [reflexivity|].
    destruct (Z.ltb_spec ms 0); [reflexivity|lia].
  - destruct (Z.eqb_spec ms 0); [lia|]. destruct (Z.ltb_spec ms 0); [lia|]. simpl.
    assert (Hmin : ms / 1000 / 60 = 0).
    { rewrite Z.div_div by lia. apply Z.div_small. lia. }
    rewrite Hmin. reflexivity.
Qed.

Lemma formatUptime_short_witness :
  StatusDisplay.formatUptime (Some (-5)) = "N/A"
  /\ StatusDisplay.formatUptime (Some 999) = "0s"
  /\ StatusDisplay.formatUptime (Some 59999) = "59s".
Proof.
  destruct (formatUptime_short (-5)) as (_ & Hneg & _).
  destruct (formatUptime_short 999) as (_ & _ & Hsub).
  destruct (formatUptime_short 59999) as (_ & _ & Hmin).
  split; [apply Hneg; lia|]. split; [apply Hsub; lia | apply Hmin; lia].
Defined.

(** X29. From one day on, the uptime is shown as whole days, the hours of
    the day begun and the minutes of the hour begun; the seconds are not
    shown. *)
Theorem formatUptime_days (ms : Z) :
  86400000 <= ms ->
  StatusDisplay.formatUptime (Some ms)
  = pretty (ms / 86400000) ++ "d " ++ pretty (ms / 3600000 mod 24) ++ "h "
    ++ pretty (ms / 60000 mod 60) ++ "m".
Proof.
  intros Hms. unfold StatusDisplay.formatUptime.
  destruct (Z.eqb_spec ms 0); [lia|]. destruct (Z.ltb_spec ms 0); [lia|]. simpl.
  assert (Hm : ms / 1000 / 60 = ms / 60000) by (rewrite Z.div_div by lia; reflexivity).
  assert (Hh : ms / 60000 / 60 = ms / 3600000) by (rewrite Z.div_div by lia; reflexivity).
  assert (Hd : ms / 3600000 / 24 = ms / 86400000) by (rewrite Z.div_div by lia; reflexivity).
  rewrite Hm, Hh, Hd.
  assert (Hpos : 0 < ms / 86400000).
  { apply Z.div_str_pos. lia. }
  destruct (Z.ltb_spec 0 (ms / 86400000)); [reflexivity|lia].
Qed.

Lemma formatUptime_days_witness :
  StatusDisplay.formatUptime (Some 93784000) = "1d 2h 3m".
Proof.
  rewrite (formatUptime_days 93784000) by lia. vm_compute. reflexivity.
Defined.

(** * An error on the request stream *)

(** X10. The stream of a public request fails while its record is in the
    table and a tunnel is active: the record and its listener are removed;
    a response that has not started (nothing of it being out) is completed
    with 500 and the body [Request stream error]; a response that has
    started is left as it is, not ended. *)
Theorem onRequestError_closes_record (e : Edge) (t : Tunnel) (requestId what : string)
    (p : Pending) :
  activeTunnel e = Some t ->
  JsMap.get requestId (pendingRequests e) = Some p ->
  (responseStarted p = false -> phase (response (res p) e) = Fresh) ->
  let out := onRequestError requestId what e in
  out.2 = Normal tt
  /\ response (res p) out.1
     = (if responseStarted p then response (res p) e
        else Outcome.answered 500 (Bodies.requestStream what) (response (res p) e))
  /\ JsMap.get requestId (pendingRequests out.1) = None
  /\ messageListeners (socket (ws t) out.1)
     = remove_first requestId (messageListeners (socket (ws t) e)).
Proof.
  intros Ht Hget Hfresh out. subst out.
  unfold onRequestError, bind, pending_get, gets. rewrite Hget.
  destruct (responseStarted p) eqn:Hs; simpl.
  - unfold removeListenerUnguarded, bind, gets, pending_delete, modify,
      ws_removeListener. simpl. rewrite Ht. simpl.
    rewrite socket_set_socket_eq. simpl. repeat split. apply get_delete_eq.
  - rewrite status_json_fresh by auto. simpl.
    unfold removeListenerUnguarded, bind, gets, pending_delete, modify,
      ws_removeListener. simpl. rewrite Ht. simpl.
    rewrite socket_set_socket_eq. simpl. repeat split.
    + by rewrite response_set_socket, response_set_pendingRequests,
                 response_set_response_eq.
    + apply get_delete_eq.
Qed.

(** The upload of [req_1] breaks off while its response is streaming. *)
Lemma onRequestError_closes_record_witness :
  let out := onRequestError "req_1" "aborted" Scenario.flushed in
  out.2 = Normal tt
  /\ phase (response 7 out.1) = HeadersSent 200
  /\ JsMap.get "req_1" (pendingRequests out.1) = None
  /\ messageListeners (socket 1 out.1) = [].
Proof.
  assert (Ht : activeTunnel Scenario.flushed
               = Some {| ws := 1; port := 8080; registeredAt := 1000 |})
    by (vm_compute; reflexivity).
  assert (Hget : JsMap.get "req_1" (pendingRequests Scenario.flushed)
                 = Some {| res := 7; responseStarted := true |})
    by (vm_compute; reflexivity).
  destruct (onRequestError_closes_record Scenario.flushed _ "req_1" "aborted"
              {| res := 7; responseStarted := true |} Ht Hget
              (fun absurd => ltac:(discriminate absurd)))
    as (Hnormal & Hres & Hgone & Hlisteners).
  cbv zeta. cbn [res responseStarted ws] in Hres, Hlisteners.
  rewrite Hres, Hlisteners.
  split; [exact Hnormal|]. split; [vm_compute; reflexivity|].
  split; [exact Hgone|]. vm_compute. reflexivity.
Defined.
